(** * Snowflake identifier generator: a shallow embedding of snowflake.go

    The Go package keeps one [Snowflake] struct per generator and one
    package-level variable, [epochStart].  Fixed-width Go integers are
    integers of [Z] with their wrap-around written out; the wall clock is
    an input of every operation that reads it; the package-level variable
    is threaded through [NewSnowflake] explicitly.  Calls of [NextID] on one
    instance are serialised by its mutex, so a run of the instance is a
    list of calls in lock-acquisition order. *)

From Stdlib Require Import String ZArith Lia List Sorted Bool.
Import ListNotations.
Local Open Scope Z_scope.

(** ** Fixed-width integers *)

Definition int64 (z : Z) : Z := (z + 2 ^ 63) mod 2 ^ 64 - 2 ^ 63.
Definition uint64 (z : Z) : Z := z mod 2 ^ 64.
Definition uint16 (z : Z) : Z := z mod 2 ^ 16.

Definition maxInt64 : Z := 2 ^ 63 - 1.

(** ** The part of package time that the generator uses

    A [Time] holds a wall-clock instant, its number of nanoseconds since
    the Unix epoch, and possibly a reading of the monotonic clock: every
    result of time.Now() carries one, a result of time.Date or time.Unix
    carries none, and Add keeps the one its operand has.  [After] compares
    the monotonic readings when both operands carry one, and the instants
    otherwise; [IsZero] and [UnixNano] look at the instant only.
    [UnixNano] is computed in int64 and wraps outside its range; the zero
    [Time] is January 1, year 1, 00:00:00 UTC. *)

Module time.

Definition Duration : Type := Z.

Definition Nanosecond : Duration := 1.

Record Time : Type := mkTime {
  wall : Z;         (* nanoseconds since the Unix epoch *)
  mono : option Z   (* the monotonic clock reading, if the Time has one *)
}.

Definition zero : Time := mkTime (-62135596800 * 1000000000) None.

Definition IsZero (t : Time) : bool := wall t =? wall zero.

Definition After (t u : Time) : bool :=
  match mono t, mono u with
  | Some a, Some b => b <? a
  | _, _ => wall u <? wall t
  end.

Definition UnixNano (t : Time) : Z := int64 (wall t).

(** time.Unix(sec, nsec): the instant [sec] seconds and [nsec] nanoseconds
    after the Unix epoch. *)
Definition Unix (sec nsec : Z) : Time := mkTime (sec * 1000000000 + nsec) None.

(** time.Date(2019, 4, 1, 0, 0, 0, 0, time.UTC) *)
Definition Date_2019_04_01 : Time := mkTime (1554076800 * 1000000000) None.

End time.

(** ** Constants *)

Definition TotalBits : Z := 64.
Definition EpochBits : Z := 42.
Definition MachineIDBits : Z := 10.
Definition SequenceBits : Z := 12.

Definition maxNodeID : Z := Z.shiftl 1 MachineIDBits - 1.

Definition snowflakeTimeUnit : Z := 1000000.

(** The initial value of the package-level variable [epochStart]. *)
Definition epochStart : time.Time := time.Date_2019_04_01.

(** ** The generator *)

Record Snowflake : Type := mkSnowflake {
  StartTime : Z;      (* int64 *)
  MachineID : Z;      (* uint64 *)
  Sequence : Z;       (* uint16 *)
  lastTimestamp : Z   (* int64 *)
}.

(** Integer division of Go truncates toward zero: [Z.quot]. *)
Definition timeToSnowflakeUnit (t : time.Time) : Z :=
  Z.quot (time.UnixNano t) snowflakeTimeUnit.

Definition elapsedTime (now : time.Time) (startTime : Z) : Z :=
  int64 (timeToSnowflakeUnit now - startTime).

Definition snowflakeUnitToTime (sf : Snowflake) (t : Z) : time.Time :=
  time.Unix 0 (int64 (int64 (StartTime sf * snowflakeTimeUnit)
                      + int64 (t * snowflakeTimeUnit))).

(** [NewSnowflake g now starttime machineID]: [g] is the value of the
    package-level [epochStart] before the call and [now] the reading of
    time.Now(); the result is the value of [epochStart] after the call and
    the returned pointer ([None] for nil). *)
Definition NewSnowflake (g : time.Time) (now : time.Time)
    (starttime : time.Time) (machineID : Z) : time.Time * option Snowflake :=
  if time.After starttime now then (g, None)
  else
    let mid := uint64 (Z.land machineID maxNodeID) in
    if time.IsZero starttime then
      (g, Some (mkSnowflake (timeToSnowflakeUnit g) mid 0 0))
    else
      (starttime, Some (mkSnowflake (timeToSnowflakeUnit starttime) mid 0 0)).

(** What a call of [NextID] hands back: the pair of Go results, or a
    panic. *)
Inductive outcome : Type :=
| Return (id : Z) (err : option string)
| Panic (msg : string).

Record result : Type := mkResult {
  state : Snowflake;              (* the fields after the call *)
  slept : option time.Duration;   (* the argument of time.Sleep, if called *)
  ret : outcome
}.

(** The two readings of time.Now() inside one call: on entry, and in the
    rollover branch (the second one only sizes the sleep). *)
Record Clock : Type := mkClock {
  at_entry : time.Time;
  at_rollover : time.Time
}.

Definition standby (last current : Z) (now : time.Time) : time.Duration :=
  int64 (int64 (int64 (last - current) * snowflakeTimeUnit)
         - int64 (Z.rem (time.UnixNano now) snowflakeTimeUnit * time.Nanosecond)).

(** The read-modify-write of lastTimestamp and Sequence: the first part of
    the body of NextID, up to the two guards (snowflake.go, lines 71-85). *)
Definition tick (sf : Snowflake) (c : Clock) : Snowflake * option time.Duration :=
  let currentTimestamp := elapsedTime (at_entry c) (StartTime sf) in
  if lastTimestamp sf <? currentTimestamp then
    (mkSnowflake (StartTime sf) (MachineID sf) 0 currentTimestamp, None)
  else
    let sq := Z.land (uint16 (Sequence sf + 1))
                     (uint16 (Z.shiftl 1 SequenceBits - 1)) in
    if sq =? 0 then
      let last := int64 (lastTimestamp sf + 1) in
      (mkSnowflake (StartTime sf) (MachineID sf) sq last,
       Some (standby last currentTimestamp (at_rollover c)))
    else
      (mkSnowflake (StartTime sf) (MachineID sf) sq (lastTimestamp sf), None).

(** The packing at the end of NextID (snowflake.go, lines 95-99). *)
Definition pack (sf : Snowflake) : Z :=
  let id := uint64 (Z.shiftl (uint64 (lastTimestamp sf))
                             (MachineIDBits + SequenceBits)) in
  let id := Z.lor id (uint64 (Z.shiftl (MachineID sf) SequenceBits)) in
  Z.lor id (uint64 (Sequence sf)).

Definition NextID (sf : Snowflake) (c : Clock) : result :=
  let '(sf', sl) := tick sf c in
  if Sequence sf' >? Z.shiftl 1 SequenceBits - 1 then
    mkResult sf' sl (Panic "Max sequence has been reached")
  else if lastTimestamp sf' >=? Z.shiftl 1 EpochBits then
    mkResult sf' sl (Return 0 (Some "maximum timestamp has been reached"%string))
  else
    mkResult sf' sl (Return (pack sf') None).

Definition DecomposeParts (id : Z) : Z * Z * Z :=
  let maskMachineID :=
    uint64 (Z.shiftl (uint64 (Z.shiftl 1 MachineIDBits - 1)) SequenceBits) in
  let maskSequence := uint64 (Z.shiftl 1 SequenceBits - 1) in
  let t := Z.shiftr id (MachineIDBits + SequenceBits) in
  let mid := Z.shiftr (Z.land id maskMachineID) SequenceBits in
  let seq := Z.land id maskSequence in
  (t, mid, seq).

(** ** Runs of one instance *)

(** The calls of one instance in lock-acquisition order, each with its
    clock readings; the results in the same order. *)
Fixpoint run (sf : Snowflake) (cs : list Clock) : list result :=
  match cs with
  | [] => []
  | c :: cs' => let r := NextID sf c in r :: run (state r) cs'
  end.

(** The fields of the instance after the calls [cs]. *)
Definition after (sf : Snowflake) (cs : list Clock) : Snowflake :=
  fold_left (fun s c => state (NextID s c)) cs sf.

(** ** Vocabulary of the statements *)

Definition errMaxTimestamp : string := "maximum timestamp has been reached".

Definition timestampOf (id : Z) : Z := fst (fst (DecomposeParts id)).
Definition nodeOf (id : Z) : Z := snd (fst (DecomposeParts id)).
Definition sequenceOf (id : Z) : Z := snd (DecomposeParts id).

(** The three fields laid side by side: 42, 10 and 12 bits. *)
Definition layout (t n s : Z) : Z := t * 2 ^ 22 + n * 2 ^ 12 + s.

(** The identifiers of a run, in the order of the calls. *)

Definition minted (rs : list result) : list Z :=
  flat_map (fun r => match ret r with
                     | Return id None => [id]
                     | _ => []
                     end) rs.

(** Every value of [timeToSnowflakeUnit] lies within this bound. *)
Definition unitBound : Z := 9223372036854.

(** The three ways through the read-modify-write. *)
Inductive tick_case (sf : Snowflake) (c : Clock) : Snowflake -> Prop :=
| tick_advance :
    lastTimestamp sf < elapsedTime (at_entry c) (StartTime sf) ->
    tick_case sf c
      (mkSnowflake (StartTime sf) (MachineID sf) 0
                   (elapsedTime (at_entry c) (StartTime sf)))
| tick_rollover :
    elapsedTime (at_entry c) (StartTime sf) <= lastTimestamp sf ->
    (Sequence sf + 1) mod 2 ^ 12 = 0 ->
    tick_case sf c
      (mkSnowflake (StartTime sf) (MachineID sf) 0
                   (int64 (lastTimestamp sf + 1)))
| tick_same :
    elapsedTime (at_entry c) (StartTime sf) <= lastTimestamp sf ->
    (Sequence sf + 1) mod 2 ^ 12 <> 0 ->
    tick_case sf c
      (mkSnowflake (StartTime sf) (MachineID sf)
                   ((Sequence sf + 1) mod 2 ^ 12) (lastTimestamp sf)).

(** [Inv n sf]: what holds of the fields once [n] calls have been made on
    an instance that [NewSnowflake] returned.  Every tick the clock can
    report lies within [2 * unitBound], and a call moves lastTimestamp to
    such a tick or one step up. *)

Record Inv (n : Z) (sf : Snowflake) : Prop := mkInv {
  Inv_start : - unitBound <= StartTime sf <= unitBound;
  Inv_node : 0 <= MachineID sf < 2 ^ 10;
  Inv_seq : 0 <= Sequence sf < 2 ^ 12;
  Inv_last : 0 <= lastTimestamp sf <= 2 * unitBound + n
}.

(** The number of calls up to which lastTimestamp stays clear of the
    int64 maximum. *)
Definition callBudget : Z := 2 ^ 62.

(** ** Concrete inputs *)

(** A reading of the clock in November 2023, one millisecond into the
    life of the process, and the instance that [NewSnowflake] builds then
    from the zero epoch and node 34. *)
Definition ex_now : time.Time :=
  time.mkTime (1700000000 * 1000000000) (Some 1000000).
Definition ex_clock : Clock := mkClock ex_now ex_now.
Definition ex_sf : Snowflake := mkSnowflake 1554076800000 34 0 0.

(** An epoch one second further in the past than 2^42 milliseconds, and
    the instance built from it. *)
Definition ex_old : time.Time := time.Unix 0 (-2698046512104000000).
Definition ex_sf_old : Snowflake := mkSnowflake (-2698046512104) 137 0 0.

(** 4095 calls within the millisecond of [ex_now]: after them one more call
    in that millisecond returns the identifier with sequence number 4095,
    and the call after that rolls over. *)
Definition ex_burst : list Clock := repeat ex_clock 4095.

(** A clock set back to the Unix epoch, and a reading 123456789 ns after
    [ex_now]. *)
Definition ex_clock_1970 : Clock := mkClock (time.Unix 0 0) (time.Unix 0 0).
Definition ex_later : time.Time :=
  time.mkTime 1700000000123456789 (Some 124456789).
Definition ex_clock_later : Clock := mkClock ex_later ex_later.

(** Two epochs built by the caller: 138 years of 365 days before [ex_now],
    and 2020-01-01 00:00:00 UTC. *)
Definition ex_138 : time.Time :=
  time.Unix 0 (time.wall ex_now - 138 * 365 * 24 * 3600 * 1000000000).
Definition ex_2020 : time.Time := time.Unix 1577836800 0.

(** ** Arithmetic of the fixed-width types *)

Lemma int64_range (z : Z) : - 2 ^ 63 <= int64 z < 2 ^ 63.
Proof.
  unfold int64.
  pose proof (Z.mod_pos_bound (z + 2 ^ 63) (2 ^ 64) ltac:(lia)). lia.
Qed.

Lemma int64_small (z : Z) : - 2 ^ 63 <= z < 2 ^ 63 -> int64 z = z.
Proof.
  intros H. unfold int64. rewrite Z.mod_small; lia.
Qed.

Lemma uint64_small (z : Z) : 0 <= z < 2 ^ 64 -> uint64 z = z.
Proof.
  intros H. unfold uint64. now rewrite Z.mod_small.
Qed.

Lemma timeToSnowflakeUnit_range (t : time.Time) :
  - unitBound <= timeToSnowflakeUnit t <= unitBound.
Proof.
  unfold timeToSnowflakeUnit, time.UnixNano, snowflakeTimeUnit, unitBound.
  pose proof (int64_range (time.wall t)) as [Hlo Hhi].
  Z.quot_rem_to_equations. lia.
Qed.

Lemma elapsedTime_range (now : time.Time) (s : Z) :
  - unitBound <= s <= unitBound ->
  - (2 * unitBound) <= elapsedTime now s <= 2 * unitBound.
Proof.
  intros Hs. unfold elapsedTime.
  pose proof (timeToSnowflakeUnit_range now) as Hn.
  unfold unitBound in *.
  rewrite int64_small; lia.
Qed.

(** The masked increment of the uint16 counter is the successor modulo
    2^12, whatever the counter held. *)
Lemma Sequence_step (s : Z) :
  Z.land (uint16 (s + 1)) (uint16 (Z.shiftl 1 SequenceBits - 1))
  = (s + 1) mod 2 ^ 12.
Proof.
  change (uint16 (Z.shiftl 1 SequenceBits - 1)) with (Z.ones 12).
  rewrite Z.land_ones by lia.
  unfold uint16.
  apply Z.mod_mod_divide.
  exists (2 ^ 4). reflexivity.
Qed.

Lemma land_shiftl_low (a b k : Z) :
  0 <= k -> 0 <= b < 2 ^ k -> Z.land (Z.shiftl a k) b = 0.
Proof.
  intros Hk Hb. apply Z.bits_inj'. intros n Hn.
  rewrite Z.land_spec, Z.bits_0.
  destruct (Z.lt_ge_cases n k) as [Hlt | Hge].
  - rewrite Z.shiftl_spec_low by assumption. reflexivity.
  - rewrite <- (Z.mod_small b (2 ^ k)) by assumption.
    rewrite Z.mod_pow2_bits_high by lia.
    apply andb_false_r.
Qed.

Lemma lor_shiftl_low (a b k : Z) :
  0 <= k -> 0 <= b < 2 ^ k -> Z.lor (Z.shiftl a k) b = a * 2 ^ k + b.
Proof.
  intros Hk Hb.
  pose proof (Z.add_lor_land (Z.shiftl a k) b) as H.
  rewrite land_shiftl_low in H by assumption.
  rewrite <- (Z.shiftl_mul_pow2 a k) by assumption. lia.
Qed.

(** ** The packed layout *)

Lemma pack_layout_mod (sf : Snowflake) :
  0 <= MachineID sf < 2 ^ 10 ->
  0 <= Sequence sf < 2 ^ 12 ->
  pack sf = layout (lastTimestamp sf mod 2 ^ 42) (MachineID sf) (Sequence sf).
Proof.
  intros Hn Hs. unfold pack, layout, MachineIDBits, SequenceBits.
  change (10 + 12) with 22.
  set (t := lastTimestamp sf mod 2 ^ 42).
  assert (Ht : 0 <= t < 2 ^ 42) by (apply Z.mod_pos_bound; lia).
  assert (E : uint64 (Z.shiftl (uint64 (lastTimestamp sf)) 22) = Z.shiftl t 22).
  { unfold uint64. rewrite !Z.shiftl_mul_pow2 by lia.
    change (2 ^ 64) with (2 ^ 42 * 2 ^ 22) at 2.
    rewrite Z.mul_mod_distr_r by lia.
    rewrite Z.mod_mod_divide by (exists (2 ^ 22); reflexivity).
    reflexivity. }
  rewrite E.
  rewrite (uint64_small (Sequence sf)) by lia.
  rewrite (uint64_small (Z.shiftl (MachineID sf) 12))
    by (rewrite Z.shiftl_mul_pow2; lia).
  rewrite (Z.shiftl_mul_pow2 (MachineID sf) 12) by lia.
  rewrite lor_shiftl_low by lia.
  replace (t * 2 ^ 22 + MachineID sf * 2 ^ 12)
    with (Z.shiftl (t * 2 ^ 10 + MachineID sf) 12)
    by (rewrite Z.shiftl_mul_pow2 by lia; ring).
  rewrite lor_shiftl_low by lia.
  rewrite Z.shiftl_mul_pow2 by lia. reflexivity.
Qed.

Lemma pack_layout (sf : Snowflake) :
  0 <= lastTimestamp sf < 2 ^ 42 ->
  0 <= MachineID sf < 2 ^ 10 ->
  0 <= Sequence sf < 2 ^ 12 ->
  pack sf = layout (lastTimestamp sf) (MachineID sf) (Sequence sf).
Proof.
  intros Ht Hn Hs. rewrite pack_layout_mod by assumption.
  rewrite Z.mod_small by assumption. reflexivity.
Qed.

Lemma DecomposeParts_eq (id : Z) :
  DecomposeParts id
  = (Z.shiftr id 22, Z.land (Z.shiftr id 12) (2 ^ 10 - 1), Z.land id (2 ^ 12 - 1)).
Proof.
  unfold DecomposeParts, MachineIDBits, SequenceBits.
  rewrite Z.shiftr_land. reflexivity.
Qed.

Lemma DecomposeParts_arith (id : Z) :
  DecomposeParts id = (id / 2 ^ 22, (id / 2 ^ 12) mod 2 ^ 10, id mod 2 ^ 12).
Proof.
  rewrite DecomposeParts_eq.
  change (2 ^ 10 - 1) with (Z.ones 10). change (2 ^ 12 - 1) with (Z.ones 12).
  rewrite !Z.land_ones, !Z.shiftr_div_pow2 by lia. reflexivity.
Qed.

Lemma DecomposeParts_layout (t n s : Z) :
  0 <= n < 2 ^ 10 -> 0 <= s < 2 ^ 12 ->
  DecomposeParts (layout t n s) = (t, n, s).
Proof.
  intros Hn Hs. rewrite DecomposeParts_arith. unfold layout.
  assert (E12 : (t * 2 ^ 22 + n * 2 ^ 12 + s) / 2 ^ 12 = t * 2 ^ 10 + n).
  { replace (t * 2 ^ 22 + n * 2 ^ 12 + s)
      with (s + (t * 2 ^ 10 + n) * 2 ^ 12) by lia.
    rewrite Z.div_add, Z.div_small by lia. lia. }
  assert (E22 : (t * 2 ^ 22 + n * 2 ^ 12 + s) / 2 ^ 22 = t).
  { replace (t * 2 ^ 22 + n * 2 ^ 12 + s)
      with ((n * 2 ^ 12 + s) + t * 2 ^ 22) by lia.
    rewrite Z.div_add, Z.div_small by lia. lia. }
  assert (M12 : (t * 2 ^ 22 + n * 2 ^ 12 + s) mod 2 ^ 12 = s).
  { replace (t * 2 ^ 22 + n * 2 ^ 12 + s)
      with (s + (t * 2 ^ 10 + n) * 2 ^ 12) by lia.
    rewrite Z.mod_add, Z.mod_small by lia. reflexivity. }
  rewrite E12, E22, M12.
  replace (t * 2 ^ 10 + n) with (n + t * 2 ^ 10) by lia.
  rewrite Z.mod_add, Z.mod_small by lia. reflexivity.
Qed.

(** ** One call *)

Lemma tick_cases (sf : Snowflake) (c : Clock) : tick_case sf c (fst (tick sf c)).
Proof.
  unfold tick. rewrite Sequence_step.
  destruct (Z.ltb_spec (lastTimestamp sf)
              (elapsedTime (at_entry c) (StartTime sf))) as [Hlt | Hge].
  - now apply tick_advance.
  - destruct (Z.eqb_spec ((Sequence sf + 1) mod 2 ^ 12) 0) as [E | NE]; cbn [fst].
    + rewrite E. now apply tick_rollover.
    + now apply tick_same.
Qed.

Lemma tick_Sequence_range (sf : Snowflake) (c : Clock) :
  0 <= Sequence (fst (tick sf c)) < 2 ^ 12.
Proof.
  destruct (tick_cases sf c); cbn [Sequence]; try lia.
  apply Z.mod_pos_bound; lia.
Qed.

Lemma tick_MachineID (sf : Snowflake) (c : Clock) :
  MachineID (fst (tick sf c)) = MachineID sf.
Proof. destruct (tick_cases sf c); reflexivity. Qed.

Lemma tick_StartTime (sf : Snowflake) (c : Clock) :
  StartTime (fst (tick sf c)) = StartTime sf.
Proof. destruct (tick_cases sf c); reflexivity. Qed.

(** [NextID] without its dead branch. *)
Lemma NextID_eq (sf : Snowflake) (c : Clock) :
  NextID sf c =
  mkResult (fst (tick sf c)) (snd (tick sf c))
    (if 2 ^ 42 <=? lastTimestamp (fst (tick sf c))
     then Return 0 (Some errMaxTimestamp)
     else Return (pack (fst (tick sf c))) None).
Proof.
  unfold NextID.
  pose proof (tick_Sequence_range sf c) as Hs.
  destruct (tick sf c) as [sf' sl]. cbn [fst snd] in *.
  rewrite Z.gtb_ltb, Z.geb_leb.
  change (Z.shiftl 1 SequenceBits - 1) with (2 ^ 12 - 1).
  change (Z.shiftl 1 EpochBits) with (2 ^ 42).
  destruct (Z.ltb_spec (2 ^ 12 - 1) (Sequence sf')); [lia |].
  now destruct (2 ^ 42 <=? lastTimestamp sf').
Qed.

Lemma state_NextID (sf : Snowflake) (c : Clock) :
  state (NextID sf c) = fst (tick sf c).
Proof. rewrite NextID_eq. reflexivity. Qed.

Lemma NextID_cases (sf : Snowflake) (c : Clock) :
  tick_case sf c (state (NextID sf c)).
Proof. rewrite state_NextID. apply tick_cases. Qed.

Lemma NextID_success (sf : Snowflake) (c : Clock) (id : Z) :
  ret (NextID sf c) = Return id None ->
  lastTimestamp (state (NextID sf c)) < 2 ^ 42 /\ id = pack (state (NextID sf c)).
Proof.
  rewrite NextID_eq. cbn [ret state].
  destruct (Z.leb_spec (2 ^ 42) (lastTimestamp (fst (tick sf c)))).
  - discriminate.
  - intros [= <-]. split; [assumption | reflexivity].
Qed.

Lemma NextID_failure (sf : Snowflake) (c : Clock) :
  2 ^ 42 <= lastTimestamp (state (NextID sf c)) ->
  ret (NextID sf c) = Return 0 (Some errMaxTimestamp).
Proof.
  rewrite NextID_eq. cbn [ret state]. intros H.
  destruct (Z.leb_spec (2 ^ 42) (lastTimestamp (fst (tick sf c)))).
  - reflexivity.
  - lia.
Qed.

Lemma after_cons (sf : Snowflake) (c : Clock) (cs : list Clock) :
  after sf (c :: cs) = after (state (NextID sf c)) cs.
Proof. reflexivity. Qed.

Lemma after_snoc (sf : Snowflake) (cs : list Clock) (c : Clock) :
  after sf (cs ++ [c]) = state (NextID (after sf cs) c).
Proof. unfold after. rewrite fold_left_app. reflexivity. Qed.

Lemma NextID_Inv (n : Z) (sf : Snowflake) (c : Clock) :
  0 <= n < callBudget -> Inv n sf -> Inv (n + 1) (state (NextID sf c)).
Proof.
  intros Hn [Hst Hnode Hseq Hlast].
  pose proof (elapsedTime_range (at_entry c) (StartTime sf) Hst) as Hcur.
  unfold callBudget, unitBound in *.
  destruct (NextID_cases sf c) as [Hlt | Hge E | Hge NE];
    constructor; cbn [StartTime MachineID Sequence lastTimestamp];
    unfold unitBound; try lia.
  - rewrite int64_small; lia.
  - apply Z.mod_pos_bound; lia.
Qed.

Lemma after_Inv (cs : list Clock) :
  forall (n : Z) (sf : Snowflake),
    0 <= n -> n + Z.of_nat (length cs) <= callBudget -> Inv n sf ->
    Inv (n + Z.of_nat (length cs)) (after sf cs).
Proof.
  induction cs as [| c cs IH]; intros n sf Hn Hlen HI.
  - cbn. now rewrite Z.add_0_r.
  - rewrite after_cons. cbn [length] in *.
    replace (n + Z.of_nat (S (length cs)))
      with ((n + 1) + Z.of_nat (length cs)) by lia.
    apply IH; [lia | lia | ].
    apply NextID_Inv; [lia | assumption].
Qed.

Lemma NewSnowflake_Inv (g now starttime : time.Time) (machineID : Z)
    (g' : time.Time) (sf : Snowflake) :
  NewSnowflake g now starttime machineID = (g', Some sf) ->
  Inv 0 sf /\ MachineID sf = Z.land machineID (2 ^ 10 - 1).
Proof.
  unfold NewSnowflake.
  assert (Hm : 0 <= Z.land machineID (2 ^ 10 - 1) < 2 ^ 10).
  { change (2 ^ 10 - 1) with (Z.ones 10). rewrite Z.land_ones by lia.
    apply Z.mod_pos_bound. lia. }
  assert (Em : uint64 (Z.land machineID maxNodeID) = Z.land machineID (2 ^ 10 - 1)).
  { change maxNodeID with (2 ^ 10 - 1). apply uint64_small. lia. }
  rewrite Em.
  destruct (time.After starttime now); [discriminate |].
  destruct (time.IsZero starttime); intros [= _ <-];
    (split; [constructor | reflexivity]);
    try exact Hm;
    cbn [StartTime MachineID Sequence lastTimestamp];
    try apply timeToSnowflakeUnit_range; unfold unitBound; lia.
Qed.

(** The order of identifiers is the order of (lastTimestamp, Sequence). *)
Lemma NextID_layout_lt (n : Z) (sf : Snowflake) (c : Clock) :
  0 <= n < callBudget -> Inv n sf ->
  layout (lastTimestamp sf) (MachineID sf) (Sequence sf)
  < layout (lastTimestamp (state (NextID sf c)))
           (MachineID (state (NextID sf c)))
           (Sequence (state (NextID sf c))).
Proof.
  intros Hn [Hst Hnode Hseq Hlast].
  unfold callBudget, unitBound, layout in *.
  destruct (NextID_cases sf c) as [Hlt | Hge E | Hge NE];
    cbn [StartTime MachineID Sequence lastTimestamp].
  - lia.
  - rewrite int64_small by lia. lia.
  - assert (E : (Sequence sf + 1) mod 2 ^ 12 = Sequence sf + 1).
    { destruct (Z.eq_dec (Sequence sf) (2 ^ 12 - 1)) as [E | E].
      - rewrite E in NE. now contradiction NE.
      - apply Z.mod_small. lia. }
    lia.
Qed.

Lemma NextID_lastTimestamp_mono (n : Z) (sf : Snowflake) (c : Clock) :
  0 <= n < callBudget -> Inv n sf ->
  lastTimestamp sf <= lastTimestamp (state (NextID sf c)).
Proof.
  intros Hn [Hst Hnode Hseq Hlast].
  unfold callBudget, unitBound in *.
  destruct (NextID_cases sf c) as [Hlt | Hge E | Hge NE];
    cbn [lastTimestamp]; try lia.
  rewrite int64_small; lia.
Qed.

Lemma NextID_error (sf : Snowflake) (c : Clock) (id : Z) (e : string) :
  ret (NextID sf c) = Return id (Some e) ->
  2 ^ 42 <= lastTimestamp (state (NextID sf c)).
Proof.
  rewrite NextID_eq. cbn [ret state].
  destruct (Z.leb_spec (2 ^ 42) (lastTimestamp (fst (tick sf c)))).
  - intros _. assumption.
  - discriminate.
Qed.

Lemma NextID_MachineID (sf : Snowflake) (c : Clock) :
  MachineID (state (NextID sf c)) = MachineID sf.
Proof. rewrite state_NextID. apply tick_MachineID. Qed.

(** An identifier that a call returns is the layout of the fields the
    call leaves behind. *)
Lemma NextID_success_layout (n : Z) (sf : Snowflake) (c : Clock) (id : Z) :
  0 <= n < callBudget -> Inv n sf ->
  ret (NextID sf c) = Return id None ->
  id = layout (lastTimestamp (state (NextID sf c)))
              (MachineID (state (NextID sf c)))
              (Sequence (state (NextID sf c)))
  /\ 0 <= lastTimestamp (state (NextID sf c)) < 2 ^ 42.
Proof.
  intros Hn HI Hret.
  destruct (NextID_success _ _ _ Hret) as [Hlt ->].
  destruct (NextID_Inv n sf c Hn HI) as [_ Hnode Hseq Hlast].
  split; [apply pack_layout |]; lia.
Qed.

(** ** Runs *)

Lemma run_minted_gt (cs : list Clock) :
  forall (n : Z) (sf : Snowflake),
    0 <= n -> n + Z.of_nat (length cs) <= callBudget -> Inv n sf ->
    forall (j : nat) (r : result) (id : Z),
      nth_error (run sf cs) j = Some r -> ret r = Return id None ->
      layout (lastTimestamp sf) (MachineID sf) (Sequence sf) < id < 2 ^ 64.
Proof.
  induction cs as [| c cs IH]; intros n sf Hn Hlen HI j r id Hj Hret.
  - destruct j; discriminate.
  - cbn [length] in Hlen.
    assert (Hn' : 0 <= n < callBudget) by lia.
    pose proof (NextID_layout_lt n sf c Hn' HI) as Hstep.
    pose proof (NextID_Inv n sf c Hn' HI) as HI'.
    destruct j as [| j]; cbn in Hj.
    + injection Hj as <-.
      destruct (NextID_success_layout n sf c id Hn' HI Hret) as [E Hlast].
      destruct HI' as [_ Hnode Hseq _]. rewrite <- E in Hstep.
      split; [assumption |]. rewrite E. unfold layout. lia.
    + assert (Hid : layout (lastTimestamp (state (NextID sf c)))
                           (MachineID (state (NextID sf c)))
                           (Sequence (state (NextID sf c))) < id < 2 ^ 64).
      { apply (IH (n + 1) (state (NextID sf c))) with (j := j) (r := r);
          try assumption; lia. }
      lia.
Qed.

Lemma run_increasing (cs : list Clock) :
  forall (n : Z) (sf : Snowflake),
    0 <= n -> n + Z.of_nat (length cs) <= callBudget -> Inv n sf ->
    forall (i j : nat) (ri rj : result) (idi idj : Z),
      (i < j)%nat ->
      nth_error (run sf cs) i = Some ri -> ret ri = Return idi None ->
      nth_error (run sf cs) j = Some rj -> ret rj = Return idj None ->
      0 <= idi < idj /\ idj < 2 ^ 64.
Proof.
  induction cs as [| c cs IH]; intros n sf Hn Hlen HI i j ri rj idi idj Hij Hi Hri Hj Hrj.
  - destruct i; discriminate.
  - cbn [length] in Hlen.
    assert (Hn' : 0 <= n < callBudget) by lia.
    pose proof (NextID_Inv n sf c Hn' HI) as HI'.
    destruct j as [| j]; [lia |].
    destruct i as [| i]; cbn in Hi, Hj.
    + injection Hi as <-.
      destruct (NextID_success_layout n sf c idi Hn' HI Hri) as [E Hlast].
      pose proof (run_minted_gt cs (n + 1) (state (NextID sf c))
                    ltac:(lia) ltac:(lia) HI' j rj idj Hj Hrj) as Hgt.
      rewrite <- E in Hgt.
      destruct HI' as [_ Hnode Hseq _].
      split; [split |]; try lia. rewrite E. unfold layout. lia.
    + apply (IH (n + 1) (state (NextID sf c)) ltac:(lia) ltac:(lia) HI'
               i j ri rj); try assumption; lia.
Qed.

Lemma run_exhausted (cs : list Clock) :
  forall (n : Z) (sf : Snowflake),
    0 <= n -> n + Z.of_nat (length cs) <= callBudget -> Inv n sf ->
    2 ^ 42 <= lastTimestamp sf ->
    forall (j : nat) (r : result),
      nth_error (run sf cs) j = Some r ->
      ret r = Return 0 (Some errMaxTimestamp).
Proof.
  induction cs as [| c cs IH]; intros n sf Hn Hlen HI Hex j r Hj.
  - destruct j; discriminate.
  - cbn [length] in Hlen.
    assert (Hn' : 0 <= n < callBudget) by lia.
    pose proof (NextID_lastTimestamp_mono n sf c Hn' HI) as Hmono.
    destruct j as [| j]; cbn in Hj.
    + injection Hj as <-. apply NextID_failure. lia.
    + apply (IH (n + 1) (state (NextID sf c))) with (j := j);
        try assumption; try lia.
      now apply NextID_Inv.
Qed.

Lemma run_error_persists (cs : list Clock) :
  forall (n : Z) (sf : Snowflake),
    0 <= n -> n + Z.of_nat (length cs) <= callBudget -> Inv n sf ->
    forall (i j : nat) (ri rj : result) (id : Z) (e : string),
      (i < j)%nat ->
      nth_error (run sf cs) i = Some ri -> ret ri = Return id (Some e) ->
      nth_error (run sf cs) j = Some rj ->
      ret rj = Return 0 (Some errMaxTimestamp).
Proof.
  induction cs as [| c cs IH]; intros n sf Hn Hlen HI i j ri rj id e Hij Hi Hri Hj.
  - destruct i; discriminate.
  - cbn [length] in Hlen.
    assert (Hn' : 0 <= n < callBudget) by lia.
    pose proof (NextID_Inv n sf c Hn' HI) as HI'.
    destruct j as [| j]; [lia |].
    destruct i as [| i]; cbn in Hi, Hj.
    + injection Hi as <-.
      apply (run_exhausted cs (n + 1) (state (NextID sf c))) with (j := j);
        try assumption; try lia.
      now apply NextID_error with (id := id) (e := e).
    + apply (IH (n + 1) (state (NextID sf c)) ltac:(lia) ltac:(lia) HI'
               i j ri rj id e); try assumption; lia.
Qed.

(** ** The fields of an identifier *)

Lemma id_layout (id : Z) :
  0 <= id < 2 ^ 64 ->
  id = layout (timestampOf id) (nodeOf id) (sequenceOf id)
  /\ 0 <= timestampOf id < 2 ^ 42
  /\ 0 <= nodeOf id < 2 ^ 10
  /\ 0 <= sequenceOf id < 2 ^ 12.
Proof.
  intros Hid. unfold timestampOf, nodeOf, sequenceOf, layout.
  rewrite DecomposeParts_arith. cbn [fst snd].
  pose proof (Z.div_mod id (2 ^ 12) ltac:(lia)) as E1.
  pose proof (Z.div_mod (id / 2 ^ 12) (2 ^ 10) ltac:(lia)) as E2.
  rewrite Z.div_div in E2 by lia.
  change (2 ^ 12 * 2 ^ 10) with (2 ^ 22) in E2.
  pose proof (Z.mod_pos_bound id (2 ^ 12) ltac:(lia)) as B1.
  pose proof (Z.mod_pos_bound (id / 2 ^ 12) (2 ^ 10) ltac:(lia)) as B2.
  assert (B3 : 0 <= id / 2 ^ 22 < 2 ^ 42).
  { split.
    - apply Z.div_pos; lia.
    - apply Z.div_lt_upper_bound; lia. }
  repeat split; lia.
Qed.

Lemma NextID_roundtrip (sf : Snowflake) (c : Clock) (id : Z) :
  0 <= MachineID sf < 2 ^ 10 ->
  ret (NextID sf c) = Return id None ->
  nodeOf id = MachineID sf /\ 0 <= sequenceOf id < 2 ^ 12.
Proof.
  intros Hnode Hret.
  destruct (NextID_success _ _ _ Hret) as [_ ->].
  rewrite state_NextID.
  pose proof (tick_Sequence_range sf c) as Hseq.
  pose proof (tick_MachineID sf c) as Hm.
  rewrite pack_layout_mod by (rewrite ?Hm; assumption).
  unfold nodeOf, sequenceOf.
  rewrite DecomposeParts_layout by (rewrite ?Hm; assumption).
  cbn [fst snd]. split; assumption.
Qed.

Lemma run_roundtrip (cs : list Clock) :
  forall (sf : Snowflake),
    0 <= MachineID sf < 2 ^ 10 ->
    forall (j : nat) (r : result) (id : Z),
      nth_error (run sf cs) j = Some r -> ret r = Return id None ->
      nodeOf id = MachineID sf /\ 0 <= sequenceOf id < 2 ^ 12.
Proof.
  induction cs as [| c cs IH]; intros sf Hnode j r id Hj Hret.
  - destruct j; discriminate.
  - destruct j as [| j]; cbn in Hj.
    + injection Hj as <-. now apply NextID_roundtrip with (c := c).
    + rewrite <- (NextID_MachineID sf c).
      apply IH with (j := j) (r := r); try assumption.
      now rewrite NextID_MachineID.
Qed.

Lemma minted_nth (rs : list result) (id : Z) :
  In id (minted rs) ->
  exists (j : nat) (r : result), nth_error rs j = Some r /\ ret r = Return id None.
Proof.
  unfold minted. rewrite in_flat_map. intros (r & Hr & Hid).
  destruct (In_nth_error _ _ Hr) as [j Hj].
  exists j, r. split; [assumption |].
  destruct (ret r) as [id' [e |] | msg]; cbn in Hid; try contradiction.
  destruct Hid as [-> | []]. reflexivity.
Qed.

Lemma minted_sorted (cs : list Clock) :
  forall (n : Z) (sf : Snowflake),
    0 <= n -> n + Z.of_nat (length cs) <= callBudget -> Inv n sf ->
    StronglySorted Z.lt (minted (run sf cs)).
Proof.
  induction cs as [| c cs IH]; intros n sf Hn Hlen HI.
  - constructor.
  - cbn [length] in Hlen.
    assert (Hn' : 0 <= n < callBudget) by lia.
    pose proof (NextID_Inv n sf c Hn' HI) as HI'.
    pose proof (IH (n + 1) (state (NextID sf c)) ltac:(lia) ltac:(lia) HI') as Hs.
    cbn [run minted flat_map]. fold (minted (run (state (NextID sf c)) cs)).
    destruct (ret (NextID sf c)) as [id [e |] | msg] eqn:Hret; cbn [app];
      try assumption.
    constructor; [assumption |].
    apply Forall_forall. intros id' Hin.
    destruct (minted_nth _ _ Hin) as (j & r & Hj & Hr).
    destruct (NextID_success_layout n sf c id Hn' HI Hret) as [E _].
    pose proof (run_minted_gt cs (n + 1) (state (NextID sf c))
                  ltac:(lia) ltac:(lia) HI' j r id' Hj Hr) as Hgt.
    rewrite E. lia.
Qed.

Lemma StronglySorted_filter (f : Z -> bool) (l : list Z) :
  StronglySorted Z.lt l -> StronglySorted Z.lt (filter f l).
Proof.
  induction 1 as [| x l Hs IH Hall]; cbn.
  - constructor.
  - destruct (f x); [| assumption].
    constructor; [assumption |].
    rewrite Forall_forall in *. intros y Hy.
    apply Hall. apply filter_In in Hy. tauto.
Qed.

(** A strictly increasing list of integers within [a, b) has at most
    [b - a] elements. *)
Lemma StronglySorted_length (l : list Z) :
  forall (a b : Z),
    StronglySorted Z.lt l -> Forall (fun x => a <= x < b) l -> a <= b ->
    Z.of_nat (length l) <= b - a.
Proof.
  induction l as [| x l IH]; intros a b Hs Hall Hab.
  - cbn. lia.
  - inversion Hs as [| ? ? Hs' Hgt]; subst.
    inversion Hall as [| ? ? Hx Hall']; subst.
    assert (Hl : Z.of_nat (length l) <= b - (x + 1)).
    { apply IH; [assumption | | lia].
      rewrite Forall_forall in *. intros y Hy.
      specialize (Hgt y Hy). specialize (Hall' y Hy). lia. }
    cbn [length]. lia.
Qed.

(** ** Decomposition *)

(** C6: for every unsigned 64-bit value, [DecomposeParts] returns the
    triple (id >> 22, (id >> 12) & (2^10 - 1), id & (2^12 - 1)); the three
    results fit in 42, 10 and 12 bits, and putting them back at their
    offsets, timestamp << 22 | nodeID << 12 | sequence, gives the value
    again. *)
Theorem DecomposeParts_fields (id : Z) :
  0 <= id < 2 ^ TotalBits ->
  DecomposeParts id
  = (Z.shiftr id 22, Z.land (Z.shiftr id 12) (2 ^ 10 - 1), Z.land id (2 ^ 12 - 1))
  /\ 0 <= timestampOf id < 2 ^ EpochBits
  /\ 0 <= nodeOf id < 2 ^ MachineIDBits
  /\ 0 <= sequenceOf id < 2 ^ SequenceBits
  /\ Z.lor (Z.lor (Z.shiftl (timestampOf id) 22) (Z.shiftl (nodeOf id) 12))
           (sequenceOf id) = id.
Proof.
  intros Hid. change (2 ^ TotalBits) with (2 ^ 64) in Hid.
  split; [apply DecomposeParts_eq |].
  destruct (id_layout id Hid) as (E & Ht & Hn & Hs).
  repeat (split; [assumption |]).
  rewrite (Z.shiftl_mul_pow2 (nodeOf id) 12) by lia.
  rewrite lor_shiftl_low by lia.
  replace (timestampOf id * 2 ^ 22 + nodeOf id * 2 ^ 12)
    with (Z.shiftl (timestampOf id * 2 ^ 10 + nodeOf id) 12)
    by (rewrite Z.shiftl_mul_pow2 by lia; ring).
  rewrite lor_shiftl_low by lia.
  rewrite E at 4. unfold layout. ring.
Qed.

Lemma DecomposeParts_fields_witness :
  0 <= 612046261452939265 < 2 ^ TotalBits
  /\ DecomposeParts 612046261452939265 = (145923200000, 34, 1).
Proof.
  split; [cbv; split; [discriminate | reflexivity] |].
  destruct (DecomposeParts_fields 612046261452939265) as [E _].
  - cbv; split; [discriminate | reflexivity].
  - rewrite E. reflexivity.
Defined.

(** ** Construction *)




(** While the package-level variable still holds its initial value, the
    zero epoch is replaced by 2019-04-01 00:00:00 UTC. *)
Lemma NewSnowflake_zero_epoch (now : time.Time) (machineID : Z) :
  time.wall time.zero <= time.wall now ->
  NewSnowflake epochStart now time.zero machineID
  = (epochStart,
     Some (mkSnowflake 1554076800000 (uint64 (Z.land machineID maxNodeID)) 0 0)).
Proof.
  intros H. unfold NewSnowflake, time.After. cbn [time.mono time.zero].
  destruct (Z.ltb_spec (time.wall now) (time.wall time.zero));
    [lia | reflexivity].
Qed.

(** C4: the default epoch does not stay fixed.  A construction with the
    custom epoch 2020-01-01 00:00:00 UTC stores that instant in the
    package-level variable, and the construction with the zero epoch that
    follows takes it, not 2019-04-01, as its start time. *)
Theorem NewSnowflake_default_epoch_overwritten :
  let custom := time.Unix 1577836800 0 in
  let now := time.mkTime (1700000000 * 1000000000) (Some 1000000) in
  fst (NewSnowflake epochStart now custom 7) = custom
  /\ NewSnowflake (fst (NewSnowflake epochStart now custom 7)) now time.zero 7
     = (custom, Some (mkSnowflake (timeToSnowflakeUnit custom) 7 0 0))
  /\ NewSnowflake epochStart now time.zero 7
     = (epochStart, Some (mkSnowflake (timeToSnowflakeUnit epochStart) 7 0 0))
  /\ timeToSnowflakeUnit custom <> timeToSnowflakeUnit epochStart.
Proof.
  cbv zeta. repeat split; try reflexivity.
  vm_compute. discriminate.
Qed.

(** ** Minting *)

(** C8: the sequence counter that the read-modify-write leaves behind
    never exceeds 2^12 - 1, whatever the fields and the clock were: the
    test before the panic is false and no call panics. *)
Theorem NextID_never_panics (sf : Snowflake) (c : Clock) :
  (Sequence (fst (tick sf c)) >? Z.shiftl 1 SequenceBits - 1) = false
  /\ 0 <= Sequence (state (NextID sf c)) <= 2 ^ SequenceBits - 1
  /\ forall msg : string, ret (NextID sf c) <> Panic msg.
Proof.
  pose proof (tick_Sequence_range sf c) as Hs.
  change (Z.shiftl 1 SequenceBits - 1) with (2 ^ 12 - 1).
  change (2 ^ SequenceBits) with (2 ^ 12).
  repeat split.
  - rewrite Z.gtb_ltb. apply Z.ltb_ge. lia.
  - rewrite state_NextID. lia.
  - rewrite state_NextID. lia.
  - intros msg. rewrite NextID_eq. cbn [ret].
    destruct (2 ^ 42 <=? lastTimestamp (fst (tick sf c))); discriminate.
Qed.

(** C2: a call fails exactly when lastTimestamp, as the call has just
    updated it, is at least 2^42; it then returns the identifier 0 with
    the error, and otherwise returns the packed identifier with no error.
    This holds of every call, whatever the fields and the clock. *)
Theorem NextID_fails_iff_exhausted (sf : Snowflake) (c : Clock) :
  (2 ^ EpochBits <= lastTimestamp (state (NextID sf c))
   <-> ret (NextID sf c) = Return 0 (Some errMaxTimestamp))
  /\ (lastTimestamp (state (NextID sf c)) < 2 ^ EpochBits
      <-> ret (NextID sf c) = Return (pack (state (NextID sf c))) None)
  /\ ((exists (id : Z) (e : string), ret (NextID sf c) = Return id (Some e))
      <-> 2 ^ EpochBits <= lastTimestamp (state (NextID sf c))).
Proof.
  change (2 ^ EpochBits) with (2 ^ 42).
  rewrite NextID_eq. cbn [ret state].
  destruct (Z.leb_spec (2 ^ 42) (lastTimestamp (fst (tick sf c)))) as [H | H].
  - repeat split; intros; try reflexivity; try assumption; try lia;
      try discriminate.
    exists 0, errMaxTimestamp. reflexivity.
  - repeat split; intros; try reflexivity; try assumption; try lia;
      try discriminate.
    match goal with
    | Hex : exists _ _, _ |- _ => destruct Hex as (id & e & [=])
    end.
Qed.

(** ** One instance, from its construction on

    [sf0] is the instance that a call of [NewSnowflake] returned; a list
    of clock readings is the calls of [NextID] made on it since, in
    lock-acquisition order.  Up to [callBudget] calls lastTimestamp cannot
    have come near the int64 maximum, whatever the clock did. *)

Section Instance.

Variables (g now starttime : time.Time) (machineID : Z).
Variables (g' : time.Time) (sf0 : Snowflake).
Hypothesis Hnew : NewSnowflake g now starttime machineID = (g', Some sf0).

Lemma Inv_after (cs : list Clock) :
  Z.of_nat (length cs) <= callBudget ->
  Inv (Z.of_nat (length cs)) (after sf0 cs).
Proof.
  intros Hlen. destruct (NewSnowflake_Inv _ _ _ _ _ _ Hnew) as [HI _].
  apply (after_Inv cs 0 sf0); [lia | lia | assumption].
Qed.

(** C1: the identifiers that successive calls on one instance return are
    strictly increasing as unsigned 64-bit integers: of two successful
    calls, the later one returns the greater identifier. *)
Theorem NextID_strictly_increasing
    (cs : list Clock) (i j : nat) (ri rj : result) (idi idj : Z) :
  Z.of_nat (length cs) <= callBudget ->
  (i < j)%nat ->
  nth_error (run sf0 cs) i = Some ri -> ret ri = Return idi None ->
  nth_error (run sf0 cs) j = Some rj -> ret rj = Return idj None ->
  0 <= idi < idj /\ idj < 2 ^ TotalBits.
Proof.
  intros Hlen Hij Hi Hri Hj Hrj.
  destruct (NewSnowflake_Inv _ _ _ _ _ _ Hnew) as [HI _].
  apply (run_increasing cs 0 sf0 ltac:(lia) ltac:(lia) HI i j ri rj);
    assumption.
Qed.

(** C3: once a call on an instance has returned the error, every later
    call on that instance returns it too, whatever the clock reads. *)
Theorem NextID_error_is_permanent
    (cs : list Clock) (i j : nat) (ri rj : result) (id : Z) (e : string) :
  Z.of_nat (length cs) <= callBudget ->
  (i < j)%nat ->
  nth_error (run sf0 cs) i = Some ri -> ret ri = Return id (Some e) ->
  nth_error (run sf0 cs) j = Some rj ->
  ret rj = Return 0 (Some errMaxTimestamp).
Proof.
  intros Hlen Hij Hi Hri Hj.
  destruct (NewSnowflake_Inv _ _ _ _ _ _ Hnew) as [HI _].
  apply (run_error_persists cs 0 sf0 ltac:(lia) ltac:(lia) HI i j ri rj id e);
    assumption.
Qed.

(** C10: no call makes lastTimestamp smaller, whether the call succeeds
    or fails and whatever the clock reads. *)
Theorem lastTimestamp_monotone (cs : list Clock) (c : Clock) :
  Z.of_nat (length cs) < callBudget ->
  lastTimestamp (after sf0 cs)
  <= lastTimestamp (state (NextID (after sf0 cs) c)).
Proof.
  intros Hlen.
  apply NextID_lastTimestamp_mono with (n := Z.of_nat (length cs)); [lia |].
  apply Inv_after. lia.
Qed.

(** C7: an identifier that [NextID] returns decomposes into the node
    identifier given to the constructor, masked to its low 10 bits, and a
    sequence number within [0, 4095]. *)
Theorem NextID_DecomposeParts_roundtrip
    (cs : list Clock) (j : nat) (r : result) (id : Z) :
  nth_error (run sf0 cs) j = Some r -> ret r = Return id None ->
  nodeOf id = Z.land machineID (2 ^ MachineIDBits - 1)
  /\ 0 <= sequenceOf id <= 4095.
Proof.
  intros Hj Hret.
  destruct (NewSnowflake_Inv _ _ _ _ _ _ Hnew) as [[_ Hnode _ _] Hmid].
  destruct (run_roundtrip cs sf0 Hnode j r id Hj Hret) as [E Hs].
  rewrite E, Hmid. split; [reflexivity | lia].
Qed.

(** C5: the state update of a call.  When lastTimestamp is below the
    current tick it becomes the current tick and Sequence becomes 0;
    otherwise Sequence becomes its successor modulo 2^12, and
    lastTimestamp goes up by exactly one when that successor is 0 and
    stays otherwise.  In a run, an identifier issued after the one that
    carries sequence number 4095 has a strictly greater timestamp field,
    and at most 4096 identifiers carry any one timestamp. *)
Theorem NextID_state_update (cs : list Clock) :
  Z.of_nat (length cs) < callBudget ->
  (forall c : Clock,
      let sf := after sf0 cs in
      let cur := elapsedTime (at_entry c) (StartTime sf) in
      let sf' := state (NextID sf c) in
      (lastTimestamp sf < cur -> lastTimestamp sf' = cur /\ Sequence sf' = 0)
      /\ (cur <= lastTimestamp sf ->
          Sequence sf' = (Sequence sf + 1) mod 2 ^ SequenceBits
          /\ (Sequence sf' = 0 -> lastTimestamp sf' = lastTimestamp sf + 1)
          /\ (Sequence sf' <> 0 -> lastTimestamp sf' = lastTimestamp sf)))
  /\ (forall (i j : nat) (ri rj : result) (idi idj : Z),
         (i < j)%nat ->
         nth_error (run sf0 cs) i = Some ri -> ret ri = Return idi None ->
         nth_error (run sf0 cs) j = Some rj -> ret rj = Return idj None ->
         sequenceOf idi = 2 ^ SequenceBits - 1 ->
         timestampOf idi < timestampOf idj)
  /\ (forall t : Z,
         Z.of_nat (length (filter (fun id => timestampOf id =? t)
                                  (minted (run sf0 cs))))
         <= 2 ^ SequenceBits).
Proof.
  intros Hlen. change (2 ^ SequenceBits) with (2 ^ 12).
  destruct (NewSnowflake_Inv _ _ _ _ _ _ Hnew) as [HI0 _].
  pose proof (Inv_after cs ltac:(lia)) as HI.
  assert (Hnode0 : 0 <= MachineID sf0 < 2 ^ 10) by apply HI0.
  split; [| split].
  - intros c sf cur sf'. subst sf cur sf'.
    destruct HI as [Hst Hnode Hseq Hlast].
    unfold callBudget, unitBound in *.
    destruct (NextID_cases (after sf0 cs) c) as [Hlt | Hge E | Hge NE];
      cbn [Sequence lastTimestamp]; rewrite ?int64_small by lia;
      (split; [intros H | intros H; repeat split; intros]); try lia.
  - intros i j ri rj idi idj Hij Hi Hri Hj Hrj Hlast.
    destruct (run_increasing cs 0 sf0 ltac:(lia) ltac:(lia) HI0
                i j ri rj idi idj Hij Hi Hri Hj Hrj) as [Hlt Hj64].
    destruct (id_layout idi ltac:(lia)) as (Ei & _ & _ & _).
    destruct (id_layout idj ltac:(lia)) as (Ej & _ & _ & Hsj).
    destruct (run_roundtrip cs sf0 Hnode0 i ri idi Hi Hri) as [Ni _].
    destruct (run_roundtrip cs sf0 Hnode0 j rj idj Hj Hrj) as [Nj _].
    rewrite Ni, Hlast in Ei. rewrite Nj in Ej. unfold layout in *. lia.
  - intros t.
    set (l := filter _ _).
    assert (Hs : StronglySorted Z.lt l).
    { apply StronglySorted_filter.
      apply (minted_sorted cs 0 sf0); [lia | lia | assumption]. }
    assert (Hall : Forall (fun id => layout t (MachineID sf0) 0 <= id
                                     < layout t (MachineID sf0) 0 + 2 ^ 12) l).
    { apply Forall_forall. intros id Hin.
      apply filter_In in Hin. destruct Hin as [Hin Ht].
      apply Z.eqb_eq in Ht.
      destruct (minted_nth _ _ Hin) as (j & r & Hj & Hr).
      destruct (run_roundtrip cs sf0 Hnode0 j r id Hj Hr) as [Nj Hsj].
      pose proof (run_minted_gt cs 0 sf0 ltac:(lia) ltac:(lia) HI0 j r id Hj Hr)
        as [_ H64].
      assert (H0 : 0 <= id).
      { pose proof (run_minted_gt cs 0 sf0 ltac:(lia) ltac:(lia) HI0 j r id Hj Hr)
          as [Hgt _].
        destruct HI0 as [_ ? ? ?]. unfold layout in Hgt. lia. }
      destruct (id_layout id ltac:(lia)) as (E & _ & _ & _).
      rewrite Ht, Nj in E. unfold layout in *. lia. }
    pose proof (StronglySorted_length l _ _ Hs Hall ltac:(lia)). lia.
Qed.

End Instance.

(** ** The theorems at concrete runs *)

Lemma NextID_strictly_increasing_witness :
  NewSnowflake epochStart ex_now time.zero 34 = (epochStart, Some ex_sf)
  /\ Z.of_nat (length [ex_clock; ex_clock]) <= callBudget
  /\ (0 < 1)%nat
  /\ nth_error (run ex_sf [ex_clock; ex_clock]) 0
     = Some (mkResult (mkSnowflake 1554076800000 34 0 145923200000) None
                      (Return 612046261452939264 None))
  /\ nth_error (run ex_sf [ex_clock; ex_clock]) 1
     = Some (mkResult (mkSnowflake 1554076800000 34 1 145923200000) None
                      (Return 612046261452939265 None))
  /\ 0 <= 612046261452939264 < 612046261452939265
  /\ 612046261452939265 < 2 ^ TotalBits.
Proof.
  assert (Hnew : NewSnowflake epochStart ex_now time.zero 34
                 = (epochStart, Some ex_sf)) by reflexivity.
  assert (Hlen : Z.of_nat (length [ex_clock; ex_clock]) <= callBudget)
    by (vm_compute; discriminate).
  assert (Hij : (0 < 1)%nat) by lia.
  assert (Hi : nth_error (run ex_sf [ex_clock; ex_clock]) 0
               = Some (mkResult (mkSnowflake 1554076800000 34 0 145923200000)
                                None (Return 612046261452939264 None)))
    by reflexivity.
  assert (Hj : nth_error (run ex_sf [ex_clock; ex_clock]) 1
               = Some (mkResult (mkSnowflake 1554076800000 34 1 145923200000)
                                None (Return 612046261452939265 None)))
    by reflexivity.
  repeat (split; [assumption |]).
  apply (NextID_strictly_increasing epochStart ex_now time.zero 34
           epochStart ex_sf Hnew [ex_clock; ex_clock] 0 1 _ _ _ _
           Hlen Hij Hi eq_refl Hj eq_refl).
Defined.

Lemma NextID_error_is_permanent_witness :
  NewSnowflake epochStart ex_now ex_old 137 = (ex_old, Some ex_sf_old)
  /\ Z.of_nat (length [ex_clock; ex_clock_1970]) <= callBudget
  /\ (0 < 1)%nat
  /\ nth_error (run ex_sf_old [ex_clock; ex_clock_1970]) 0
     = Some (mkResult (mkSnowflake (-2698046512104) 137 0 4398046512104) None
                      (Return 0 (Some errMaxTimestamp)))
  /\ nth_error (run ex_sf_old [ex_clock; ex_clock_1970]) 1
     = Some (mkResult (mkSnowflake (-2698046512104) 137 1 4398046512104) None
                      (Return 0 (Some errMaxTimestamp)))
  /\ ret (mkResult (mkSnowflake (-2698046512104) 137 1 4398046512104) None
                   (Return 0 (Some errMaxTimestamp)))
     = Return 0 (Some errMaxTimestamp).
Proof.
  assert (Hnew : NewSnowflake epochStart ex_now ex_old 137
                 = (ex_old, Some ex_sf_old)) by reflexivity.
  assert (Hlen : Z.of_nat (length [ex_clock; ex_clock_1970]) <= callBudget)
    by (vm_compute; discriminate).
  assert (Hij : (0 < 1)%nat) by lia.
  assert (Hi : nth_error (run ex_sf_old [ex_clock; ex_clock_1970]) 0
               = Some (mkResult (mkSnowflake (-2698046512104) 137 0 4398046512104)
                                None (Return 0 (Some errMaxTimestamp))))
    by reflexivity.
  assert (Hj : nth_error (run ex_sf_old [ex_clock; ex_clock_1970]) 1
               = Some (mkResult (mkSnowflake (-2698046512104) 137 1 4398046512104)
                                None (Return 0 (Some errMaxTimestamp))))
    by reflexivity.
  repeat (split; [assumption |]).
  apply (NextID_error_is_permanent epochStart ex_now ex_old 137
           ex_old ex_sf_old Hnew [ex_clock; ex_clock_1970] 0 1 _ _ 0
           errMaxTimestamp Hlen Hij Hi eq_refl Hj).
Defined.

Lemma lastTimestamp_monotone_witness :
  NewSnowflake epochStart ex_now time.zero 34 = (epochStart, Some ex_sf)
  /\ Z.of_nat (length [ex_clock]) < callBudget
  /\ lastTimestamp (after ex_sf [ex_clock])
     <= lastTimestamp (state (NextID (after ex_sf [ex_clock]) ex_clock_1970)).
Proof.
  assert (Hnew : NewSnowflake epochStart ex_now time.zero 34
                 = (epochStart, Some ex_sf)) by reflexivity.
  assert (Hlen : Z.of_nat (length [ex_clock]) < callBudget) by reflexivity.
  repeat (split; [assumption |]).
  apply (lastTimestamp_monotone epochStart ex_now time.zero 34
           epochStart ex_sf Hnew [ex_clock] ex_clock_1970 Hlen).
Defined.

Lemma NextID_DecomposeParts_roundtrip_witness :
  NewSnowflake epochStart ex_now time.zero 1058 = (epochStart, Some ex_sf)
  /\ nth_error (run ex_sf [ex_clock]) 0
     = Some (mkResult (mkSnowflake 1554076800000 34 0 145923200000) None
                      (Return 612046261452939264 None))
  /\ nodeOf 612046261452939264 = Z.land 1058 (2 ^ MachineIDBits - 1)
  /\ 0 <= sequenceOf 612046261452939264 <= 4095.
Proof.
  assert (Hnew : NewSnowflake epochStart ex_now time.zero 1058
                 = (epochStart, Some ex_sf)) by reflexivity.
  assert (Hj : nth_error (run ex_sf [ex_clock]) 0
               = Some (mkResult (mkSnowflake 1554076800000 34 0 145923200000)
                                None (Return 612046261452939264 None)))
    by reflexivity.
  repeat (split; [assumption |]).
  apply (NextID_DecomposeParts_roundtrip epochStart ex_now time.zero 1058
           epochStart ex_sf Hnew [ex_clock] 0 _ _ Hj eq_refl).
Defined.

Lemma NextID_state_update_witness :
  NewSnowflake epochStart ex_now time.zero 34 = (epochStart, Some ex_sf)
  /\ Z.of_nat (length [ex_clock; ex_clock]) < callBudget
  /\ Z.of_nat (length (filter (fun id => timestampOf id =? 145923200000)
                              (minted (run ex_sf [ex_clock; ex_clock]))))
     <= 2 ^ SequenceBits.
Proof.
  assert (Hnew : NewSnowflake epochStart ex_now time.zero 34
                 = (epochStart, Some ex_sf)) by reflexivity.
  assert (Hlen : Z.of_nat (length [ex_clock; ex_clock]) < callBudget)
    by reflexivity.
  repeat (split; [assumption |]).
  apply (NextID_state_update epochStart ex_now time.zero 34
           epochStart ex_sf Hnew [ex_clock; ex_clock] Hlen).
Defined.

(** ** Beyond the call budget

    The budget keeps lastTimestamp away from the one place where the
    increment of the rollover branch wraps: at the int64 maximum, which
    takes more than 2^62 calls to reach from a new instance. *)
Remark lastTimestamp_wraps_at_maxInt64 :
  lastTimestamp (state (NextID (mkSnowflake 0 34 4095 maxInt64) ex_clock))
  = - 2 ^ 63.
Proof. reflexivity. Qed.

(** * Further properties of the package *)

(** ** Conversions between instants and time units *)

Lemma int64_add (a b : Z) : int64 (int64 a + int64 b) = int64 (a + b).
Proof.
  unfold int64. Z.div_mod_to_equations. lia.
Qed.

Lemma snowflakeUnitToTime_eq (sf : Snowflake) (t : Z) :
  snowflakeUnitToTime sf t
  = time.Unix 0 (int64 ((StartTime sf + t) * snowflakeTimeUnit)).
Proof.
  unfold snowflakeUnitToTime. rewrite int64_add.
  do 2 f_equal. ring.
Qed.

Lemma wall_Unix_0 (nsec : Z) : time.wall (time.Unix 0 nsec) = nsec.
Proof. reflexivity. Qed.

(** X1: [timeToSnowflakeUnit] keeps the order of the instants that UnixNano
    can represent. *)
Theorem timeToSnowflakeUnit_monotone (t u : time.Time) :
  - 2 ^ 63 <= time.wall t -> time.wall t <= time.wall u ->
  time.wall u < 2 ^ 63 ->
  timeToSnowflakeUnit t <= timeToSnowflakeUnit u.
Proof.
  intros Ht Htu Hu. unfold timeToSnowflakeUnit, time.UnixNano.
  rewrite !int64_small by lia.
  apply Z.quot_le_mono; [reflexivity | assumption].
Qed.

Lemma timeToSnowflakeUnit_monotone_witness :
  - 2 ^ 63 <= time.wall (time.Unix 0 (-1))
  /\ time.wall (time.Unix 0 (-1)) <= time.wall (time.Unix 0 1999999)
  /\ time.wall (time.Unix 0 1999999) < 2 ^ 63
  /\ timeToSnowflakeUnit (time.Unix 0 (-1))
     <= timeToSnowflakeUnit (time.Unix 0 1999999).
Proof.
  assert (H1 : - 2 ^ 63 <= time.wall (time.Unix 0 (-1)))
    by (vm_compute; discriminate).
  assert (H2 : time.wall (time.Unix 0 (-1)) <= time.wall (time.Unix 0 1999999))
    by (vm_compute; discriminate).
  assert (H3 : time.wall (time.Unix 0 1999999) < 2 ^ 63) by reflexivity.
  repeat (split; [assumption |]).
  apply (timeToSnowflakeUnit_monotone (time.Unix 0 (-1)) (time.Unix 0 1999999)
           H1 H2 H3).
Defined.

(** X2: converting a number of units to an instant and back gives the number
    of units since the Unix epoch, as long as the instant is one that
    UnixNano can represent. *)
Theorem snowflakeUnitToTime_roundtrip (sf : Snowflake) (t : Z) :
  - 2 ^ 63 <= (StartTime sf + t) * snowflakeTimeUnit < 2 ^ 63 ->
  timeToSnowflakeUnit (snowflakeUnitToTime sf t) = StartTime sf + t.
Proof.
  intros H. rewrite snowflakeUnitToTime_eq.
  unfold timeToSnowflakeUnit, time.UnixNano. rewrite wall_Unix_0.
  rewrite !int64_small by (rewrite ?int64_small by assumption; assumption).
  unfold snowflakeTimeUnit. apply Z.quot_mul. lia.
Qed.

Lemma snowflakeUnitToTime_roundtrip_witness :
  - 2 ^ 63 <= (StartTime ex_sf + 145923200000) * snowflakeTimeUnit < 2 ^ 63
  /\ timeToSnowflakeUnit (snowflakeUnitToTime ex_sf 145923200000)
     = StartTime ex_sf + 145923200000.
Proof.
  assert (H : - 2 ^ 63 <= (StartTime ex_sf + 145923200000) * snowflakeTimeUnit
              < 2 ^ 63)
    by (vm_compute; split; [discriminate | reflexivity]).
  split; [assumption |].
  apply (snowflakeUnitToTime_roundtrip ex_sf 145923200000 H).
Defined.

(** X3: the tick that [elapsedTime] computes for a clock reading converts back
    to that reading cut down to a whole number of milliseconds. *)
Theorem snowflakeUnitToTime_elapsedTime (sf : Snowflake) (now : time.Time) :
  - unitBound <= StartTime sf <= unitBound ->
  - 2 ^ 63 <= time.wall now < 2 ^ 63 ->
  snowflakeUnitToTime sf (elapsedTime now (StartTime sf))
  = time.Unix 0 (time.wall now - Z.rem (time.wall now) snowflakeTimeUnit).
Proof.
  intros Hst Hnow. rewrite snowflakeUnitToTime_eq. f_equal.
  pose proof (timeToSnowflakeUnit_range now) as Hr.
  unfold elapsedTime. rewrite (int64_small (_ - _)) by (unfold unitBound in *; lia).
  replace (StartTime sf + (timeToSnowflakeUnit now - StartTime sf))
    with (timeToSnowflakeUnit now) by lia.
  unfold timeToSnowflakeUnit, time.UnixNano, snowflakeTimeUnit in *.
  rewrite (int64_small (time.wall now)) in * by assumption.
  pose proof (Z.quot_rem' (time.wall now) 1000000) as E.
  pose proof (Z.rem_bound_abs (time.wall now) 1000000 ltac:(lia)) as B.
  rewrite int64_small; Z.quot_rem_to_equations; lia.
Qed.

Lemma snowflakeUnitToTime_elapsedTime_witness :
  - unitBound <= StartTime ex_sf <= unitBound
  /\ - 2 ^ 63 <= time.wall ex_later < 2 ^ 63
  /\ snowflakeUnitToTime ex_sf (elapsedTime ex_later (StartTime ex_sf))
     = time.Unix 0 (time.wall ex_later
                    - Z.rem (time.wall ex_later) snowflakeTimeUnit).
Proof.
  assert (H1 : - unitBound <= StartTime ex_sf <= unitBound)
    by (vm_compute; split; discriminate).
  assert (H2 : - 2 ^ 63 <= time.wall ex_later < 2 ^ 63)
    by (vm_compute; split; [discriminate | reflexivity]).
  repeat (split; [assumption |]).
  apply (snowflakeUnitToTime_elapsedTime ex_sf ex_later H1 H2).
Defined.

(** ** Construction, continued *)

(** X4: [NewSnowflake] returns nil exactly when the epoch is after the
    reading of the clock as Time.After has it: by the monotonic readings
    when the epoch and the reading both carry one, by the wall-clock
    instants otherwise.  An epoch equal to the reading is accepted. *)
Theorem NewSnowflake_nil_iff (g now starttime : time.Time) (machineID : Z) :
  snd (NewSnowflake g now starttime machineID) = None
  <-> match time.mono starttime, time.mono now with
      | Some a, Some b => b < a
      | _, _ => time.wall now < time.wall starttime
      end.
Proof.
  unfold NewSnowflake, time.After.
  destruct (time.mono starttime) as [a |], (time.mono now) as [b |];
    match goal with
    | |- context [?x <? ?y] => destruct (Z.ltb_spec x y) as [Hlt | Hge]
    end; cbv zeta; try destruct (time.IsZero starttime); cbn [snd];
    split; intros H; try reflexivity; try assumption; try discriminate;
    lia.
Qed.

(** X5: A new instance starts with both counters at 0, and its node identifier
    is the residue of the given integer modulo 2^10: an integer within
    [0, 1023] is kept as it is. *)
Theorem NewSnowflake_node_residue (g now starttime : time.Time) (machineID : Z)
    (g' : time.Time) (sf : Snowflake) :
  NewSnowflake g now starttime machineID = (g', Some sf) ->
  MachineID sf = machineID mod 2 ^ MachineIDBits
  /\ (0 <= machineID <= maxNodeID -> MachineID sf = machineID)
  /\ Sequence sf = 0
  /\ lastTimestamp sf = 0.
Proof.
  intros Hnew.
  destruct (NewSnowflake_Inv _ _ _ _ _ _ Hnew) as [_ Hm].
  assert (E : MachineID sf = machineID mod 2 ^ 10).
  { rewrite Hm. change (2 ^ 10 - 1) with (Z.ones 10).
    apply Z.land_ones. lia. }
  change (2 ^ MachineIDBits) with (2 ^ 10). change maxNodeID with 1023.
  split; [assumption |]. split.
  - intros Hr. rewrite E. apply Z.mod_small. lia.
  - unfold NewSnowflake in Hnew.
    destruct (time.After starttime now); [discriminate |].
    destruct (time.IsZero starttime); injection Hnew as _ <-; split; reflexivity.
Qed.

Lemma NewSnowflake_node_residue_witness :
  NewSnowflake epochStart ex_now time.zero (-1)
  = (epochStart, Some (mkSnowflake 1554076800000 1023 0 0))
  /\ MachineID (mkSnowflake 1554076800000 1023 0 0) = -1 mod 2 ^ MachineIDBits.
Proof.
  assert (Hnew : NewSnowflake epochStart ex_now time.zero (-1)
                 = (epochStart, Some (mkSnowflake 1554076800000 1023 0 0)))
    by reflexivity.
  split; [assumption |].
  apply (NewSnowflake_node_residue epochStart ex_now time.zero (-1)
           epochStart (mkSnowflake 1554076800000 1023 0 0) Hnew).
Defined.

(** X6: two node identifiers that differ by a multiple of 2^10 build the same
    generator. *)
Theorem NewSnowflake_node_collision (g now starttime : time.Time)
    (machineID k : Z) :
  NewSnowflake g now starttime (machineID + k * 2 ^ MachineIDBits)
  = NewSnowflake g now starttime machineID.
Proof.
  unfold NewSnowflake.
  assert (E : Z.land (machineID + k * 2 ^ MachineIDBits) maxNodeID
              = Z.land machineID maxNodeID).
  { change maxNodeID with (Z.ones 10). change (2 ^ MachineIDBits) with (2 ^ 10).
    rewrite !Z.land_ones by lia. apply Z.mod_add. lia. }
  rewrite E. reflexivity.
Qed.

(** ** The first call on a new instance *)

(** X7: the first identifier of an instance.  When the clock reads a tick above
    0, the identifier carries that tick and sequence number 0; when the
    clock reads the tick of the epoch or an earlier one, it carries tick 0
    and sequence number 1; from tick 2^42 on the call fails. *)
Theorem NextID_first_identifier (g now starttime : time.Time) (machineID : Z)
    (g' : time.Time) (sf0 : Snowflake) (c : Clock) :
  NewSnowflake g now starttime machineID = (g', Some sf0) ->
  (elapsedTime (at_entry c) (StartTime sf0) <= 0 ->
   ret (NextID sf0 c) = Return (layout 0 (MachineID sf0) 1) None)
  /\ (0 < elapsedTime (at_entry c) (StartTime sf0) < 2 ^ EpochBits ->
      ret (NextID sf0 c)
      = Return (layout (elapsedTime (at_entry c) (StartTime sf0))
                       (MachineID sf0) 0) None)
  /\ (2 ^ EpochBits <= elapsedTime (at_entry c) (StartTime sf0) ->
      ret (NextID sf0 c) = Return 0 (Some errMaxTimestamp)).
Proof.
  intros Hnew. change (2 ^ EpochBits) with (2 ^ 42).
  destruct (NewSnowflake_Inv _ _ _ _ _ _ Hnew) as [[_ Hnode _ _] _].
  destruct (NewSnowflake_node_residue _ _ _ _ _ _ Hnew) as (_ & _ & Hs & Hl).
  destruct sf0 as [st0 m0 s0 l0].
  cbn [StartTime MachineID Sequence lastTimestamp] in *. subst s0 l0.
  rewrite NextID_eq. cbn [ret]. rewrite <- state_NextID.
  destruct (NextID_cases (mkSnowflake st0 m0 0 0) c) as [Hlt | Hge E | Hge NE];
    cbn [StartTime MachineID Sequence lastTimestamp] in *.
  - destruct (Z.leb_spec (2 ^ 42) (elapsedTime (at_entry c) st0)) as [Hex | Hin];
      repeat split; intros H; try lia; try reflexivity.
    rewrite pack_layout; cbn [lastTimestamp MachineID Sequence]; try lia.
    reflexivity.
  - discriminate E.
  - change ((0 + 1) mod 2 ^ 12) with 1.
    destruct (Z.leb_spec (2 ^ 42) 0) as [Hex | Hin]; [lia |].
    repeat split; intros H; try lia.
    rewrite pack_layout; cbn [lastTimestamp MachineID Sequence]; try lia.
    reflexivity.
Qed.

Lemma NextID_first_identifier_witness :
  NewSnowflake epochStart ex_now ex_now 34
  = (ex_now, Some (mkSnowflake 1700000000000 34 0 0))
  /\ ret (NextID (mkSnowflake 1700000000000 34 0 0) ex_clock)
     = Return (layout 0 34 1) None.
Proof.
  assert (Hnew : NewSnowflake epochStart ex_now ex_now 34
                 = (ex_now, Some (mkSnowflake 1700000000000 34 0 0)))
    by reflexivity.
  split; [assumption |].
  apply (NextID_first_identifier epochStart ex_now ex_now 34 ex_now
           (mkSnowflake 1700000000000 34 0 0) ex_clock Hnew).
  vm_compute. discriminate.
Defined.

(** ** The lifetime of an epoch *)

Lemma NewSnowflake_custom_StartTime (g now starttime : time.Time)
    (machineID : Z) (g' : time.Time) (sf0 : Snowflake) :
  NewSnowflake g now starttime machineID = (g', Some sf0) ->
  time.IsZero starttime = false ->
  - 2 ^ 63 <= time.wall starttime < 2 ^ 63 ->
  StartTime sf0 = Z.quot (time.wall starttime) snowflakeTimeUnit.
Proof.
  unfold NewSnowflake. intros Hnew Hz Hr.
  destruct (time.After starttime now); [discriminate |].
  rewrite Hz in Hnew. injection Hnew as _ <-.
  cbn [StartTime]. unfold timeToSnowflakeUnit, time.UnixNano.
  now rewrite int64_small.
Qed.

Lemma elapsedTime_custom (a st : time.Time) :
  - 2 ^ 63 <= time.wall st < 2 ^ 63 -> - 2 ^ 63 <= time.wall a < 2 ^ 63 ->
  elapsedTime a (Z.quot (time.wall st) snowflakeTimeUnit)
  = Z.quot (time.wall a) snowflakeTimeUnit
    - Z.quot (time.wall st) snowflakeTimeUnit.
Proof.
  intros Hst Ha. unfold elapsedTime, timeToSnowflakeUnit, time.UnixNano.
  rewrite (int64_small (time.wall a)) by assumption.
  unfold snowflakeTimeUnit. apply int64_small.
  Z.quot_rem_to_equations. lia.
Qed.

(** X8: with a custom epoch no more than 2^42 - 1 milliseconds before the
    reading of the clock, the first call returns an identifier. *)
Theorem NextID_epoch_in_range (g now starttime : time.Time) (machineID : Z)
    (g' : time.Time) (sf0 : Snowflake) (c : Clock) :
  NewSnowflake g now starttime machineID = (g', Some sf0) ->
  time.IsZero starttime = false ->
  - 2 ^ 63 <= time.wall starttime < 2 ^ 63 ->
  - 2 ^ 63 <= time.wall (at_entry c) < 2 ^ 63 ->
  time.wall (at_entry c) - time.wall starttime
  <= (2 ^ EpochBits - 1) * snowflakeTimeUnit ->
  exists id : Z, ret (NextID sf0 c) = Return id None.
Proof.
  intros Hnew Hz Hst Ha Hd.
  pose proof (NewSnowflake_custom_StartTime _ _ _ _ _ _ Hnew Hz Hst) as E.
  destruct (NextID_first_identifier _ _ _ _ _ _ c Hnew) as (H1 & H2 & _).
  rewrite E in *. rewrite elapsedTime_custom in * by assumption.
  change (2 ^ EpochBits) with (2 ^ 42) in *. unfold snowflakeTimeUnit in *.
  destruct (Z_le_gt_dec (Z.quot (time.wall (at_entry c)) 1000000
                         - Z.quot (time.wall starttime) 1000000) 0)
    as [Hle | Hgt].
  - eexists. apply H1. assumption.
  - eexists. apply H2. split; [lia |].
    clear H1 H2 E Hnew. Z.quot_rem_to_equations. lia.
Qed.

Lemma NextID_epoch_in_range_witness :
  NewSnowflake epochStart ex_now ex_138 137
  = (ex_138, Some (mkSnowflake (-2651968000000) 137 0 0))
  /\ time.IsZero ex_138 = false
  /\ - 2 ^ 63 <= time.wall ex_138 < 2 ^ 63
  /\ - 2 ^ 63 <= time.wall (at_entry ex_clock) < 2 ^ 63
  /\ time.wall (at_entry ex_clock) - time.wall ex_138
     <= (2 ^ EpochBits - 1) * snowflakeTimeUnit
  /\ exists id : Z,
       ret (NextID (mkSnowflake (-2651968000000) 137 0 0) ex_clock)
       = Return id None.
Proof.
  assert (Hnew : NewSnowflake epochStart ex_now ex_138 137
                 = (ex_138, Some (mkSnowflake (-2651968000000) 137 0 0)))
    by reflexivity.
  assert (Hz : time.IsZero ex_138 = false) by reflexivity.
  assert (Hst : - 2 ^ 63 <= time.wall ex_138 < 2 ^ 63)
    by (vm_compute; split; [discriminate | reflexivity]).
  assert (Ha : - 2 ^ 63 <= time.wall (at_entry ex_clock) < 2 ^ 63)
    by (vm_compute; split; [discriminate | reflexivity]).
  assert (Hd : time.wall (at_entry ex_clock) - time.wall ex_138
               <= (2 ^ EpochBits - 1) * snowflakeTimeUnit)
    by (vm_compute; discriminate).
  repeat (split; [assumption |]).
  apply (NextID_epoch_in_range epochStart ex_now ex_138 137 ex_138
           (mkSnowflake (-2651968000000) 137 0 0) ex_clock
           Hnew Hz Hst Ha Hd).
Defined.

(** X9: with a custom epoch that is not before the earliest instant
    UnixNano can represent (1677-09-21), a reading of the clock that is not
    after the latest one (2262-04-11), and the epoch at least 2^42 + 2
    milliseconds before the reading, the first call already fails. *)
Theorem NextID_epoch_exceeded (g now starttime : time.Time) (machineID : Z)
    (g' : time.Time) (sf0 : Snowflake) (c : Clock) :
  NewSnowflake g now starttime machineID = (g', Some sf0) ->
  time.IsZero starttime = false ->
  - 2 ^ 63 <= time.wall starttime ->
  time.wall (at_entry c) < 2 ^ 63 ->
  (2 ^ EpochBits + 2) * snowflakeTimeUnit
  <= time.wall (at_entry c) - time.wall starttime ->
  ret (NextID sf0 c) = Return 0 (Some errMaxTimestamp).
Proof.
  intros Hnew Hz Hlo Hhi Hd.
  assert (Hst : - 2 ^ 63 <= time.wall starttime < 2 ^ 63).
  { change (2 ^ EpochBits) with (2 ^ 42) in Hd.
    unfold snowflakeTimeUnit in Hd. lia. }
  assert (Ha : - 2 ^ 63 <= time.wall (at_entry c) < 2 ^ 63).
  { change (2 ^ EpochBits) with (2 ^ 42) in Hd.
    unfold snowflakeTimeUnit in Hd. lia. }
  pose proof (NewSnowflake_custom_StartTime _ _ _ _ _ _ Hnew Hz Hst) as E.
  destruct (NextID_first_identifier _ _ _ _ _ _ c Hnew) as (_ & _ & H3).
  rewrite E in *. rewrite elapsedTime_custom in * by assumption.
  change (2 ^ EpochBits) with (2 ^ 42) in *. unfold snowflakeTimeUnit in *.
  apply H3. clear H3 E Hnew. Z.quot_rem_to_equations. lia.
Qed.

Lemma NextID_epoch_exceeded_witness :
  NewSnowflake epochStart ex_now ex_old 137 = (ex_old, Some ex_sf_old)
  /\ time.IsZero ex_old = false
  /\ - 2 ^ 63 <= time.wall ex_old
  /\ time.wall (at_entry ex_clock) < 2 ^ 63
  /\ (2 ^ EpochBits + 2) * snowflakeTimeUnit
     <= time.wall (at_entry ex_clock) - time.wall ex_old
  /\ ret (NextID ex_sf_old ex_clock) = Return 0 (Some errMaxTimestamp).
Proof.
  assert (Hnew : NewSnowflake epochStart ex_now ex_old 137
                 = (ex_old, Some ex_sf_old)) by reflexivity.
  assert (Hz : time.IsZero ex_old = false) by reflexivity.
  assert (Hlo : - 2 ^ 63 <= time.wall ex_old) by (vm_compute; discriminate).
  assert (Hhi : time.wall (at_entry ex_clock) < 2 ^ 63) by reflexivity.
  assert (Hd : (2 ^ EpochBits + 2) * snowflakeTimeUnit
               <= time.wall (at_entry ex_clock) - time.wall ex_old)
    by (vm_compute; discriminate).
  repeat (split; [assumption |]).
  apply (NextID_epoch_exceeded epochStart ex_now ex_old 137 ex_old ex_sf_old
           ex_clock Hnew Hz Hlo Hhi Hd).
Defined.

(** Before that earliest instant UnixNano wraps: with the epoch
    1600-01-01 00:00:00 UTC and the clock at [ex_now], more than 2^42
    milliseconds later, the first call returns an identifier. *)
Remark NextID_epoch_before_1678 :
  NewSnowflake epochStart ex_now (time.Unix (-11676096000) 0) 5
  = (time.Unix (-11676096000) 0, Some (mkSnowflake 6770648073709 5 0 0))
  /\ ret (NextID (mkSnowflake 6770648073709 5 0 0) ex_clock)
     = Return 20481 None.
Proof. split; reflexivity. Qed.

(** ** What a call leaves untouched *)

(** X10: no call changes the epoch or the node identifier of an instance. *)
Theorem after_frame (sf : Snowflake) (cs : list Clock) :
  StartTime (after sf cs) = StartTime sf
  /\ MachineID (after sf cs) = MachineID sf.
Proof.
  revert sf. induction cs as [| c cs IH]; intros sf.
  - split; reflexivity.
  - rewrite after_cons. destruct (IH (state (NextID sf c))) as [-> ->].
    rewrite state_NextID. split; [apply tick_StartTime | apply tick_MachineID].
Qed.

(** ** Sleeping *)

(** X11: A call sleeps exactly in the rollover branch: when the clock has not
    passed lastTimestamp and the sequence counter wraps to 0. *)
Theorem NextID_sleeps_iff_rollover (sf : Snowflake) (c : Clock) :
  (exists d : time.Duration, slept (NextID sf c) = Some d)
  <-> elapsedTime (at_entry c) (StartTime sf) <= lastTimestamp sf
      /\ (Sequence sf + 1) mod 2 ^ SequenceBits = 0.
Proof.
  change (2 ^ SequenceBits) with (2 ^ 12).
  rewrite NextID_eq. cbn [slept]. unfold tick. rewrite Sequence_step.
  destruct (Z.ltb_spec (lastTimestamp sf)
              (elapsedTime (at_entry c) (StartTime sf))) as [Hlt | Hge];
    cbn [snd].
  - split; [intros [d [=]] | lia].
  - destruct (Z.eqb_spec ((Sequence sf + 1) mod 2 ^ 12) 0) as [E | NE];
      cbn [snd].
    + split; [intros _; split; assumption | intros _; eexists; reflexivity].
    + split; [intros [d [=]] | intros [_ E]; contradiction].
Qed.

Lemma NextID_slept (sf : Snowflake) (c : Clock) :
  elapsedTime (at_entry c) (StartTime sf) <= lastTimestamp sf ->
  (Sequence sf + 1) mod 2 ^ 12 = 0 ->
  state (NextID sf c)
  = mkSnowflake (StartTime sf) (MachineID sf) 0 (int64 (lastTimestamp sf + 1))
  /\ slept (NextID sf c)
     = Some (standby (int64 (lastTimestamp sf + 1))
                     (elapsedTime (at_entry c) (StartTime sf)) (at_rollover c)).
Proof.
  intros Hge E. rewrite NextID_eq. cbn [state slept].
  unfold tick. rewrite Sequence_step, E.
  destruct (Z.ltb_spec (lastTimestamp sf)
              (elapsedTime (at_entry c) (StartTime sf))); [lia |].
  cbn. split; reflexivity.
Qed.

Lemma standby_eq (last current : Z) (now : time.Time) :
  0 <= time.wall now < 2 ^ 63 ->
  0 <= last - current ->
  (last - current) * snowflakeTimeUnit < 2 ^ 63 ->
  standby last current now
  = (last - current) * snowflakeTimeUnit
    - Z.rem (time.wall now) snowflakeTimeUnit.
Proof.
  intros Hnow Hpos Hfit. unfold standby, time.UnixNano, time.Nanosecond.
  unfold snowflakeTimeUnit in *.
  pose proof (Z.rem_bound_pos (time.wall now) 1000000 ltac:(lia) ltac:(lia))
    as B.
  rewrite (int64_small (time.wall now)) by lia.
  rewrite Z.mul_1_r.
  rewrite (int64_small (last - current)) by lia.
  rewrite (int64_small ((last - current) * 1000000)) by lia.
  rewrite (int64_small (Z.rem (time.wall now) 1000000)) by lia.
  apply int64_small. lia.
Qed.

Lemma NoDup_StronglySorted (l : list Z) : StronglySorted Z.lt l -> NoDup l.
Proof.
  induction 1 as [| x l Hs IH Hall]; constructor; [| assumption].
  intros Hin. rewrite Forall_forall in Hall. specialize (Hall x Hin). lia.
Qed.

(** ** One instance, continued *)

Section Lifetime.

Variables (g now starttime : time.Time) (machineID : Z).
Variables (g' : time.Time) (sf0 : Snowflake).
Hypothesis Hnew : NewSnowflake g now starttime machineID = (g', Some sf0).

Lemma Inv_reached (cs : list Clock) :
  Z.of_nat (length cs) <= callBudget ->
  Inv (Z.of_nat (length cs)) (after sf0 cs).
Proof.
  intros Hlen. destruct (NewSnowflake_Inv _ _ _ _ _ _ Hnew) as [HI _].
  apply (after_Inv cs 0 sf0); [lia | lia | assumption].
Qed.

(** X12: no two successful calls on one instance return the same identifier. *)
Theorem NextID_unique (cs : list Clock) :
  Z.of_nat (length cs) <= callBudget ->
  NoDup (minted (run sf0 cs)).
Proof.
  intros Hlen. destruct (NewSnowflake_Inv _ _ _ _ _ _ Hnew) as [HI _].
  apply NoDup_StronglySorted.
  apply (minted_sorted cs 0 sf0); [lia | lia | assumption].
Qed.

(** X13: A returned identifier is never 0, the number that comes with the
    error: it lies strictly above the node identifier shifted to its
    place. *)
Theorem NextID_positive (cs : list Clock) (j : nat) (r : result) (id : Z) :
  Z.of_nat (length cs) <= callBudget ->
  nth_error (run sf0 cs) j = Some r -> ret r = Return id None ->
  0 <= Z.shiftl (MachineID sf0) SequenceBits < id.
Proof.
  intros Hlen Hj Hr.
  destruct (NewSnowflake_Inv _ _ _ _ _ _ Hnew) as [HI _].
  destruct (NewSnowflake_node_residue _ _ _ _ _ _ Hnew) as (_ & _ & Hs & Hl).
  pose proof (run_minted_gt cs 0 sf0 ltac:(lia) ltac:(lia) HI j r id Hj Hr)
    as [Hgt _].
  destruct HI as [_ Hnode _ _].
  rewrite Hs, Hl in Hgt. unfold layout in Hgt.
  unfold SequenceBits. rewrite Z.shiftl_mul_pow2 by lia. lia.
Qed.

(** X14: the three fields of a returned identifier are the fields of the
    instance after the call, and its timestamp is behind neither the tick
    the call read from the clock nor the lastTimestamp it found. *)
Theorem NextID_timestamp_field (cs : list Clock) (c : Clock) (id : Z) :
  Z.of_nat (length cs) < callBudget ->
  ret (NextID (after sf0 cs) c) = Return id None ->
  DecomposeParts id
  = (lastTimestamp (state (NextID (after sf0 cs) c)),
     MachineID sf0,
     Sequence (state (NextID (after sf0 cs) c)))
  /\ elapsedTime (at_entry c) (StartTime sf0) <= timestampOf id
  /\ lastTimestamp (after sf0 cs) <= timestampOf id.
Proof.
  intros Hlen Hret.
  pose proof (Inv_reached cs ltac:(lia)) as HI.
  assert (Hn : 0 <= Z.of_nat (length cs) < callBudget) by lia.
  destruct (NextID_success_layout _ _ _ _ Hn HI Hret) as [E Hlast].
  pose proof (NextID_Inv _ _ c Hn HI) as [_ Hnode Hseq _].
  pose proof (NextID_lastTimestamp_mono _ _ c Hn HI) as Hmono.
  destruct (after_frame sf0 cs) as [Est Em].
  assert (D : DecomposeParts id
              = (lastTimestamp (state (NextID (after sf0 cs) c)),
                 MachineID sf0,
                 Sequence (state (NextID (after sf0 cs) c)))).
  { rewrite E, DecomposeParts_layout by assumption.
    now rewrite NextID_MachineID, Em. }
  split; [assumption |].
  unfold timestampOf. rewrite D. cbn [fst].
  split; [| assumption].
  rewrite <- Est.
  destruct HI as [Hst _ _ Hl0]. unfold callBudget, unitBound in *.
  destruct (NextID_cases (after sf0 cs) c) as [Hlt | Hge Ez | Hge NE];
    cbn [lastTimestamp] in *; rewrite ?int64_small by lia; lia.
Qed.

(** X15: while the clock has not passed the timestamp of the last identifier
    and its sequence number is below 4095, the next identifier is the last
    one plus 1, and the call does not sleep. *)
Theorem NextID_same_tick_consecutive
    (cs : list Clock) (c1 c2 : Clock) (id1 : Z) :
  Z.of_nat (length cs) + 1 < callBudget ->
  ret (NextID (after sf0 cs) c1) = Return id1 None ->
  sequenceOf id1 < 2 ^ SequenceBits - 1 ->
  elapsedTime (at_entry c2) (StartTime sf0) <= timestampOf id1 ->
  ret (NextID (state (NextID (after sf0 cs) c1)) c2) = Return (id1 + 1) None
  /\ slept (NextID (state (NextID (after sf0 cs) c1)) c2) = None.
Proof.
  intros Hlen Hret Hseq Hclk. change (2 ^ SequenceBits) with (2 ^ 12) in Hseq.
  destruct (NextID_timestamp_field cs c1 id1 ltac:(lia) Hret) as (D & _ & _).
  unfold sequenceOf, timestampOf in *. rewrite D in *. cbn [fst snd] in *.
  pose proof (Inv_reached cs ltac:(lia)) as HI.
  assert (Hn : 0 <= Z.of_nat (length cs) < callBudget) by lia.
  destruct (NextID_success_layout _ _ _ _ Hn HI Hret) as [E Hlast].
  pose proof (NextID_Inv _ _ c1 Hn HI) as HI1.
  destruct (after_frame sf0 (cs ++ [c1])) as [Est _].
  rewrite after_snoc in Est. rewrite <- Est in Hclk.
  set (sf1 := state (NextID (after sf0 cs) c1)) in *.
  destruct HI1 as [Hst1 Hnode1 Hseq1 Hl1].
  assert (Emod : (Sequence sf1 + 1) mod 2 ^ 12 = Sequence sf1 + 1)
    by (apply Z.mod_small; lia).
  rewrite NextID_eq. cbn [ret slept]. unfold tick.
  rewrite Sequence_step, Emod.
  destruct (Z.ltb_spec (lastTimestamp sf1)
              (elapsedTime (at_entry c2) (StartTime sf1))); [lia |].
  destruct (Z.eqb_spec (Sequence sf1 + 1) 0); [lia |].
  cbn [fst snd lastTimestamp].
  destruct (Z.leb_spec (2 ^ 42) (lastTimestamp sf1)); [lia |].
  split; [| reflexivity].
  rewrite pack_layout; cbn [lastTimestamp MachineID Sequence]; try lia.
  rewrite E. unfold layout. f_equal. lia.
Qed.

(** X16: after the identifier with sequence number 4095, while the clock has
    not passed its timestamp, the next identifier carries the next tick
    and sequence number 0, and the call sleeps. *)
Theorem NextID_rollover_successor
    (cs : list Clock) (c1 c2 : Clock) (id1 : Z) :
  Z.of_nat (length cs) + 1 < callBudget ->
  ret (NextID (after sf0 cs) c1) = Return id1 None ->
  sequenceOf id1 = 2 ^ SequenceBits - 1 ->
  elapsedTime (at_entry c2) (StartTime sf0) <= timestampOf id1 ->
  timestampOf id1 + 1 < 2 ^ EpochBits ->
  ret (NextID (state (NextID (after sf0 cs) c1)) c2)
  = Return (layout (timestampOf id1 + 1) (nodeOf id1) 0) None
  /\ exists d : time.Duration,
       slept (NextID (state (NextID (after sf0 cs) c1)) c2) = Some d.
Proof.
  intros Hlen Hret Hseq Hclk Hroom.
  change (2 ^ SequenceBits) with (2 ^ 12) in Hseq.
  change (2 ^ EpochBits) with (2 ^ 42) in Hroom.
  destruct (NextID_timestamp_field cs c1 id1 ltac:(lia) Hret) as (D & _ & _).
  unfold sequenceOf, timestampOf, nodeOf in *. rewrite D in *.
  cbn [fst snd] in *.
  pose proof (Inv_reached cs ltac:(lia)) as HI.
  assert (Hn : 0 <= Z.of_nat (length cs) < callBudget) by lia.
  pose proof (NextID_Inv _ _ c1 Hn HI) as HI1.
  destruct (after_frame sf0 (cs ++ [c1])) as [Est Em].
  rewrite after_snoc in Est, Em. rewrite <- Est in Hclk.
  set (sf1 := state (NextID (after sf0 cs) c1)) in *.
  destruct HI1 as [Hst1 Hnode1 Hseq1 Hl1].
  assert (Emod : (Sequence sf1 + 1) mod 2 ^ 12 = 0) by (rewrite Hseq; reflexivity).
  destruct (NextID_slept sf1 c2 Hclk Emod) as [Es Esl].
  split; [| eexists; exact Esl].
  rewrite NextID_eq. cbn [ret]. rewrite <- state_NextID, Es.
  cbn [lastTimestamp].
  rewrite int64_small by (unfold callBudget, unitBound in *; lia).
  destruct (Z.leb_spec (2 ^ 42) (lastTimestamp sf1 + 1)); [lia |].
  rewrite pack_layout; cbn [lastTimestamp MachineID Sequence]; try lia.
  rewrite Em. reflexivity.
Qed.

(** X17: when the sequence counter rolls over while lastTimestamp is the tick
    the clock reads, and the clock is past the Unix epoch, the call sleeps
    for more than 0 and at most 1 millisecond. *)
Theorem NextID_sleep_bound (cs : list Clock) (c : Clock) :
  Z.of_nat (length cs) < callBudget ->
  lastTimestamp (after sf0 cs) = elapsedTime (at_entry c) (StartTime sf0) ->
  Sequence (after sf0 cs) = 2 ^ SequenceBits - 1 ->
  0 <= time.wall (at_rollover c) < 2 ^ 63 ->
  exists d : time.Duration,
    slept (NextID (after sf0 cs) c) = Some d /\ 0 < d <= snowflakeTimeUnit.
Proof.
  intros Hlen Hcur Hseq Hclk. change (2 ^ SequenceBits) with (2 ^ 12) in Hseq.
  pose proof (Inv_reached cs ltac:(lia)) as [Hst _ _ Hl].
  destruct (after_frame sf0 cs) as [Est _]. rewrite <- Est in Hcur.
  assert (Emod : (Sequence (after sf0 cs) + 1) mod 2 ^ 12 = 0)
    by (rewrite Hseq; reflexivity).
  destruct (NextID_slept (after sf0 cs) c ltac:(lia) Emod) as [_ Esl].
  eexists. split; [exact Esl |].
  assert (El : int64 (lastTimestamp (after sf0 cs) + 1)
               = lastTimestamp (after sf0 cs) + 1).
  { apply int64_small. unfold callBudget, unitBound in *. lia. }
  rewrite El, <- Hcur.
  pose proof (Z.rem_bound_pos (time.wall (at_rollover c)) snowflakeTimeUnit
                ltac:(lia) ltac:(unfold snowflakeTimeUnit; lia)) as B.
  rewrite standby_eq; unfold snowflakeTimeUnit in *; lia.
Qed.

(** X18: when the sequence counter rolls over and both readings of the clock
    fall in the same millisecond, past the Unix epoch, the sleep ends at
    the instant at which the new lastTimestamp begins. *)
Theorem NextID_sleep_target (cs : list Clock) (c : Clock) :
  Z.of_nat (length cs) < callBudget ->
  elapsedTime (at_entry c) (StartTime sf0) <= lastTimestamp (after sf0 cs) ->
  Sequence (after sf0 cs) = 2 ^ SequenceBits - 1 ->
  timeToSnowflakeUnit (at_rollover c) = timeToSnowflakeUnit (at_entry c) ->
  0 <= time.wall (at_rollover c) ->
  time.wall (at_rollover c)
  + (lastTimestamp (after sf0 cs) + 1 - elapsedTime (at_entry c) (StartTime sf0))
    * snowflakeTimeUnit < 2 ^ 63 ->
  exists d : time.Duration,
    slept (NextID (after sf0 cs) c) = Some d
    /\ time.Unix 0 (time.wall (at_rollover c) + d)
       = snowflakeUnitToTime sf0 (lastTimestamp (state (NextID (after sf0 cs) c))).
Proof.
  intros Hlen Hge Hseq Hsame Hpos Hfit.
  change (2 ^ SequenceBits) with (2 ^ 12) in Hseq.
  assert (Hclk : time.wall (at_rollover c) < 2 ^ 63)
    by (unfold snowflakeTimeUnit in Hfit; lia).
  pose proof (Inv_reached cs ltac:(lia)) as [Hst _ _ Hl].
  destruct (after_frame sf0 cs) as [Est _].
  assert (Emod : (Sequence (after sf0 cs) + 1) mod 2 ^ 12 = 0)
    by (rewrite Hseq; reflexivity).
  assert (Hge' : elapsedTime (at_entry c) (StartTime (after sf0 cs))
                 <= lastTimestamp (after sf0 cs)) by (rewrite Est; exact Hge).
  destruct (NextID_slept (after sf0 cs) c Hge' Emod) as [Es Esl].
  eexists. split; [exact Esl |].
  rewrite Es. cbn [lastTimestamp]. rewrite Est.
  assert (El : int64 (lastTimestamp (after sf0 cs) + 1)
               = lastTimestamp (after sf0 cs) + 1).
  { apply int64_small. unfold callBudget, unitBound in *. lia. }
  rewrite El.
  assert (Ecur : elapsedTime (at_entry c) (StartTime sf0)
                 = Z.quot (time.wall (at_rollover c)) snowflakeTimeUnit
                   - StartTime sf0).
  { unfold elapsedTime. rewrite <- Hsame.
    pose proof (timeToSnowflakeUnit_range (at_rollover c)) as Hr.
    rewrite int64_small by (rewrite <- Est; unfold unitBound in *; lia).
    unfold timeToSnowflakeUnit, time.UnixNano.
    rewrite int64_small by lia. reflexivity. }
  rewrite standby_eq by (unfold snowflakeTimeUnit in *; lia).
  rewrite snowflakeUnitToTime_eq. f_equal.
  pose proof (Z.quot_rem' (time.wall (at_rollover c)) snowflakeTimeUnit) as Q.
  pose proof (Z.rem_bound_pos (time.wall (at_rollover c)) snowflakeTimeUnit
                ltac:(lia) ltac:(unfold snowflakeTimeUnit; lia)) as B.
  rewrite Ecur in *. unfold snowflakeTimeUnit in *.
  symmetry. rewrite int64_small; lia.
Qed.

(** X19: an identifier issued by a call that adopts the tick of the clock
    decodes, through [snowflakeUnitToTime], to the reading of the clock cut
    down to a whole number of milliseconds. *)
Theorem NextID_decoded_mint_time (cs : list Clock) (c : Clock) (id : Z) :
  Z.of_nat (length cs) < callBudget ->
  lastTimestamp (after sf0 cs) < elapsedTime (at_entry c) (StartTime sf0) ->
  - 2 ^ 63 <= time.wall (at_entry c) < 2 ^ 63 ->
  ret (NextID (after sf0 cs) c) = Return id None ->
  snowflakeUnitToTime sf0 (timestampOf id)
  = time.Unix 0 (time.wall (at_entry c)
                 - Z.rem (time.wall (at_entry c)) snowflakeTimeUnit).
Proof.
  intros Hlen Hadv Hclk Hret.
  destruct (NextID_timestamp_field cs c id Hlen Hret) as (D & _ & _).
  unfold timestampOf. rewrite D. cbn [fst].
  destruct (NewSnowflake_Inv _ _ _ _ _ _ Hnew) as [[Hst _ _ _] _].
  destruct (after_frame sf0 cs) as [Est _].
  rewrite <- (snowflakeUnitToTime_elapsedTime sf0 (at_entry c) Hst Hclk).
  f_equal. rewrite <- Est in *.
  destruct (NextID_cases (after sf0 cs) c) as [Hlt | Hge Ez | Hge NE];
    cbn [lastTimestamp]; [reflexivity | lia | lia].
Qed.

End Lifetime.

(** ** Two instances *)

(** X20: instances whose node identifiers differ modulo 2^10 never return the
    same identifier, whatever their epochs and clocks. *)
Theorem NextID_nodes_disjoint
    (g1 now1 start1 : time.Time) (m1 : Z) (g1' : time.Time) (sf1 : Snowflake)
    (g2 now2 start2 : time.Time) (m2 : Z) (g2' : time.Time) (sf2 : Snowflake)
    (cs1 cs2 : list Clock) (j1 j2 : nat) (r1 r2 : result) (id1 id2 : Z) :
  NewSnowflake g1 now1 start1 m1 = (g1', Some sf1) ->
  NewSnowflake g2 now2 start2 m2 = (g2', Some sf2) ->
  m1 mod 2 ^ MachineIDBits <> m2 mod 2 ^ MachineIDBits ->
  nth_error (run sf1 cs1) j1 = Some r1 -> ret r1 = Return id1 None ->
  nth_error (run sf2 cs2) j2 = Some r2 -> ret r2 = Return id2 None ->
  id1 <> id2.
Proof.
  intros Hnew1 Hnew2 Hm Hj1 Hr1 Hj2 Hr2 E.
  destruct (NewSnowflake_Inv _ _ _ _ _ _ Hnew1) as [[_ Hn1 _ _] _].
  destruct (NewSnowflake_Inv _ _ _ _ _ _ Hnew2) as [[_ Hn2 _ _] _].
  destruct (NewSnowflake_node_residue _ _ _ _ _ _ Hnew1) as (E1 & _).
  destruct (NewSnowflake_node_residue _ _ _ _ _ _ Hnew2) as (E2 & _).
  destruct (run_roundtrip cs1 sf1 Hn1 j1 r1 id1 Hj1 Hr1) as [N1 _].
  destruct (run_roundtrip cs2 sf2 Hn2 j2 r2 id2 Hj2 Hr2) as [N2 _].
  apply Hm. rewrite <- E1, <- E2, <- N1, <- N2, E. reflexivity.
Qed.

Lemma NextID_nodes_disjoint_witness :
  NewSnowflake epochStart ex_now time.zero 34 = (epochStart, Some ex_sf)
  /\ NewSnowflake epochStart ex_now time.zero 35
     = (epochStart, Some (mkSnowflake 1554076800000 35 0 0))
  /\ 34 mod 2 ^ MachineIDBits <> 35 mod 2 ^ MachineIDBits
  /\ nth_error (run ex_sf [ex_clock; ex_clock]) 1
     = Some (mkResult (mkSnowflake 1554076800000 34 1 145923200000) None
                      (Return 612046261452939265 None))
  /\ nth_error (run (mkSnowflake 1554076800000 35 0 0) [ex_clock]) 0
     = Some (mkResult (mkSnowflake 1554076800000 35 0 145923200000) None
                      (Return 612046261452943360 None))
  /\ 612046261452939265 <> 612046261452943360.
Proof.
  assert (H1 : NewSnowflake epochStart ex_now time.zero 34
               = (epochStart, Some ex_sf)) by reflexivity.
  assert (H2 : NewSnowflake epochStart ex_now time.zero 35
               = (epochStart, Some (mkSnowflake 1554076800000 35 0 0)))
    by reflexivity.
  assert (Hm : 34 mod 2 ^ MachineIDBits <> 35 mod 2 ^ MachineIDBits)
    by (vm_compute; discriminate).
  assert (Hj1 : nth_error (run ex_sf [ex_clock; ex_clock]) 1
                = Some (mkResult (mkSnowflake 1554076800000 34 1 145923200000)
                                 None (Return 612046261452939265 None)))
    by reflexivity.
  assert (Hj2 : nth_error (run (mkSnowflake 1554076800000 35 0 0) [ex_clock]) 0
                = Some (mkResult (mkSnowflake 1554076800000 35 0 145923200000)
                                 None (Return 612046261452943360 None)))
    by reflexivity.
  repeat (split; [assumption |]).
  apply (NextID_nodes_disjoint _ _ _ _ _ _ _ _ _ _ _ _ _ _ 1%nat 0%nat _ _ _ _
           H1 H2 Hm Hj1 eq_refl Hj2 eq_refl).
Defined.

(** ** The further theorems at concrete runs *)

Lemma NextID_unique_witness :
  NewSnowflake epochStart ex_now time.zero 34 = (epochStart, Some ex_sf)
  /\ Z.of_nat (length [ex_clock; ex_clock]) <= callBudget
  /\ NoDup (minted (run ex_sf [ex_clock; ex_clock])).
Proof.
  assert (Hnew : NewSnowflake epochStart ex_now time.zero 34
                 = (epochStart, Some ex_sf)) by reflexivity.
  assert (Hlen : Z.of_nat (length [ex_clock; ex_clock]) <= callBudget)
    by (vm_compute; discriminate).
  repeat (split; [assumption |]).
  apply (NextID_unique epochStart ex_now time.zero 34 epochStart ex_sf Hnew
           [ex_clock; ex_clock] Hlen).
Defined.

Lemma NextID_positive_witness :
  NewSnowflake epochStart ex_now ex_now 0
  = (ex_now, Some (mkSnowflake 1700000000000 0 0 0))
  /\ Z.of_nat (length [ex_clock]) <= callBudget
  /\ nth_error (run (mkSnowflake 1700000000000 0 0 0) [ex_clock]) 0
     = Some (mkResult (mkSnowflake 1700000000000 0 1 0) None (Return 1 None))
  /\ 0 <= Z.shiftl (MachineID (mkSnowflake 1700000000000 0 0 0)) SequenceBits < 1.
Proof.
  assert (Hnew : NewSnowflake epochStart ex_now ex_now 0
                 = (ex_now, Some (mkSnowflake 1700000000000 0 0 0)))
    by reflexivity.
  assert (Hlen : Z.of_nat (length [ex_clock]) <= callBudget)
    by (vm_compute; discriminate).
  assert (Hj : nth_error (run (mkSnowflake 1700000000000 0 0 0) [ex_clock]) 0
               = Some (mkResult (mkSnowflake 1700000000000 0 1 0) None
                                (Return 1 None)))
    by reflexivity.
  repeat (split; [assumption |]).
  apply (NextID_positive epochStart ex_now ex_now 0 ex_now
           (mkSnowflake 1700000000000 0 0 0) Hnew [ex_clock] 0 _ 1
           Hlen Hj eq_refl).
Defined.

Lemma NextID_timestamp_field_witness :
  NewSnowflake epochStart ex_now time.zero 34 = (epochStart, Some ex_sf)
  /\ Z.of_nat (length (@nil Clock)) < callBudget
  /\ ret (NextID (after ex_sf []) ex_clock) = Return 612046261452939264 None
  /\ DecomposeParts 612046261452939264
     = (lastTimestamp (state (NextID (after ex_sf []) ex_clock)),
        MachineID ex_sf,
        Sequence (state (NextID (after ex_sf []) ex_clock))).
Proof.
  assert (Hnew : NewSnowflake epochStart ex_now time.zero 34
                 = (epochStart, Some ex_sf)) by reflexivity.
  assert (Hlen : Z.of_nat (length (@nil Clock)) < callBudget) by reflexivity.
  assert (Hret : ret (NextID (after ex_sf []) ex_clock)
                 = Return 612046261452939264 None) by reflexivity.
  repeat (split; [assumption |]).
  apply (NextID_timestamp_field epochStart ex_now time.zero 34 epochStart
           ex_sf Hnew [] ex_clock 612046261452939264 Hlen Hret).
Defined.

Lemma NextID_same_tick_consecutive_witness :
  NewSnowflake epochStart ex_now time.zero 34 = (epochStart, Some ex_sf)
  /\ Z.of_nat (length (@nil Clock)) + 1 < callBudget
  /\ ret (NextID (after ex_sf []) ex_clock) = Return 612046261452939264 None
  /\ sequenceOf 612046261452939264 < 2 ^ SequenceBits - 1
  /\ elapsedTime (at_entry ex_clock_1970) (StartTime ex_sf)
     <= timestampOf 612046261452939264
  /\ ret (NextID (state (NextID (after ex_sf []) ex_clock)) ex_clock_1970)
     = Return (612046261452939264 + 1) None.
Proof.
  assert (Hnew : NewSnowflake epochStart ex_now time.zero 34
                 = (epochStart, Some ex_sf)) by reflexivity.
  assert (Hlen : Z.of_nat (length (@nil Clock)) + 1 < callBudget) by reflexivity.
  assert (Hret : ret (NextID (after ex_sf []) ex_clock)
                 = Return 612046261452939264 None) by reflexivity.
  assert (Hseq : sequenceOf 612046261452939264 < 2 ^ SequenceBits - 1)
    by reflexivity.
  assert (Hclk : elapsedTime (at_entry ex_clock_1970) (StartTime ex_sf)
                 <= timestampOf 612046261452939264)
    by (vm_compute; discriminate).
  repeat (split; [assumption |]).
  apply (NextID_same_tick_consecutive epochStart ex_now time.zero 34 epochStart
           ex_sf Hnew [] ex_clock ex_clock_1970 612046261452939264
           Hlen Hret Hseq Hclk).
Defined.

Lemma NextID_rollover_successor_witness :
  NewSnowflake epochStart ex_now time.zero 34 = (epochStart, Some ex_sf)
  /\ Z.of_nat (length ex_burst) + 1 < callBudget
  /\ ret (NextID (after ex_sf ex_burst) ex_clock) = Return 612046261452943359 None
  /\ sequenceOf 612046261452943359 = 2 ^ SequenceBits - 1
  /\ elapsedTime (at_entry ex_clock) (StartTime ex_sf)
     <= timestampOf 612046261452943359
  /\ timestampOf 612046261452943359 + 1 < 2 ^ EpochBits
  /\ ret (NextID (state (NextID (after ex_sf ex_burst) ex_clock)) ex_clock)
     = Return (layout (timestampOf 612046261452943359 + 1)
                      (nodeOf 612046261452943359) 0) None.
Proof.
  assert (Hnew : NewSnowflake epochStart ex_now time.zero 34
                 = (epochStart, Some ex_sf)) by reflexivity.
  assert (Hlen : Z.of_nat (length ex_burst) + 1 < callBudget)
    by (vm_compute; reflexivity).
  assert (Hret : ret (NextID (after ex_sf ex_burst) ex_clock)
                 = Return 612046261452943359 None)
    by (vm_compute; reflexivity).
  assert (Hseq : sequenceOf 612046261452943359 = 2 ^ SequenceBits - 1)
    by reflexivity.
  assert (Hclk : elapsedTime (at_entry ex_clock) (StartTime ex_sf)
                 <= timestampOf 612046261452943359)
    by (vm_compute; discriminate).
  assert (Hroom : timestampOf 612046261452943359 + 1 < 2 ^ EpochBits)
    by reflexivity.
  repeat (split; [assumption |]).
  apply (NextID_rollover_successor epochStart ex_now time.zero 34 epochStart
           ex_sf Hnew ex_burst ex_clock ex_clock 612046261452943359
           Hlen Hret Hseq Hclk Hroom).
Defined.

Lemma NextID_sleep_bound_witness :
  NewSnowflake epochStart ex_now time.zero 34 = (epochStart, Some ex_sf)
  /\ Z.of_nat (length (ex_burst ++ [ex_clock])) < callBudget
  /\ lastTimestamp (after ex_sf (ex_burst ++ [ex_clock]))
     = elapsedTime (at_entry ex_clock) (StartTime ex_sf)
  /\ Sequence (after ex_sf (ex_burst ++ [ex_clock])) = 2 ^ SequenceBits - 1
  /\ 0 <= time.wall (at_rollover ex_clock) < 2 ^ 63
  /\ exists d : time.Duration,
       slept (NextID (after ex_sf (ex_burst ++ [ex_clock])) ex_clock) = Some d
       /\ 0 < d <= snowflakeTimeUnit.
Proof.
  assert (Hnew : NewSnowflake epochStart ex_now time.zero 34
                 = (epochStart, Some ex_sf)) by reflexivity.
  assert (Hlen : Z.of_nat (length (ex_burst ++ [ex_clock])) < callBudget)
    by (vm_compute; reflexivity).
  assert (Hcur : lastTimestamp (after ex_sf (ex_burst ++ [ex_clock]))
                 = elapsedTime (at_entry ex_clock) (StartTime ex_sf))
    by (vm_compute; reflexivity).
  assert (Hseq : Sequence (after ex_sf (ex_burst ++ [ex_clock]))
                 = 2 ^ SequenceBits - 1)
    by (vm_compute; reflexivity).
  assert (Hclk : 0 <= time.wall (at_rollover ex_clock) < 2 ^ 63)
    by (vm_compute; split; [discriminate | reflexivity]).
  repeat (split; [assumption |]).
  apply (NextID_sleep_bound epochStart ex_now time.zero 34 epochStart ex_sf
           Hnew (ex_burst ++ [ex_clock]) ex_clock Hlen Hcur Hseq Hclk).
Defined.

Lemma NextID_sleep_target_witness :
  NewSnowflake epochStart ex_now time.zero 34 = (epochStart, Some ex_sf)
  /\ Z.of_nat (length (ex_burst ++ [ex_clock])) < callBudget
  /\ elapsedTime (at_entry ex_clock) (StartTime ex_sf)
     <= lastTimestamp (after ex_sf (ex_burst ++ [ex_clock]))
  /\ Sequence (after ex_sf (ex_burst ++ [ex_clock])) = 2 ^ SequenceBits - 1
  /\ timeToSnowflakeUnit (at_rollover ex_clock)
     = timeToSnowflakeUnit (at_entry ex_clock)
  /\ 0 <= time.wall (at_rollover ex_clock)
  /\ time.wall (at_rollover ex_clock)
     + (lastTimestamp (after ex_sf (ex_burst ++ [ex_clock])) + 1
        - elapsedTime (at_entry ex_clock) (StartTime ex_sf))
       * snowflakeTimeUnit < 2 ^ 63
  /\ exists d : time.Duration,
       slept (NextID (after ex_sf (ex_burst ++ [ex_clock])) ex_clock) = Some d
       /\ time.Unix 0 (time.wall (at_rollover ex_clock) + d)
          = snowflakeUnitToTime ex_sf
              (lastTimestamp
                 (state (NextID (after ex_sf (ex_burst ++ [ex_clock])) ex_clock))).
Proof.
  assert (Hnew : NewSnowflake epochStart ex_now time.zero 34
                 = (epochStart, Some ex_sf)) by reflexivity.
  assert (Hlen : Z.of_nat (length (ex_burst ++ [ex_clock])) < callBudget)
    by (vm_compute; reflexivity).
  assert (Hge : elapsedTime (at_entry ex_clock) (StartTime ex_sf)
                <= lastTimestamp (after ex_sf (ex_burst ++ [ex_clock])))
    by (vm_compute; discriminate).
  assert (Hseq : Sequence (after ex_sf (ex_burst ++ [ex_clock]))
                 = 2 ^ SequenceBits - 1)
    by (vm_compute; reflexivity).
  assert (Hsame : timeToSnowflakeUnit (at_rollover ex_clock)
                  = timeToSnowflakeUnit (at_entry ex_clock)) by reflexivity.
  assert (Hpos : 0 <= time.wall (at_rollover ex_clock))
    by (vm_compute; discriminate).
  assert (Hfit : time.wall (at_rollover ex_clock)
                 + (lastTimestamp (after ex_sf (ex_burst ++ [ex_clock])) + 1
                    - elapsedTime (at_entry ex_clock) (StartTime ex_sf))
                   * snowflakeTimeUnit < 2 ^ 63)
    by (vm_compute; reflexivity).
  repeat (split; [assumption |]).
  apply (NextID_sleep_target epochStart ex_now time.zero 34 epochStart ex_sf
           Hnew (ex_burst ++ [ex_clock]) ex_clock
           Hlen Hge Hseq Hsame Hpos Hfit).
Defined.

Lemma NextID_decoded_mint_time_witness :
  NewSnowflake epochStart ex_now time.zero 34 = (epochStart, Some ex_sf)
  /\ Z.of_nat (length (@nil Clock)) < callBudget
  /\ lastTimestamp (after ex_sf [])
     < elapsedTime (at_entry ex_clock_later) (StartTime ex_sf)
  /\ - 2 ^ 63 <= time.wall (at_entry ex_clock_later) < 2 ^ 63
  /\ ret (NextID (after ex_sf []) ex_clock_later)
     = Return 612046261968838656 None
  /\ snowflakeUnitToTime ex_sf (timestampOf 612046261968838656)
     = time.Unix 0 (time.wall (at_entry ex_clock_later)
                    - Z.rem (time.wall (at_entry ex_clock_later))
                            snowflakeTimeUnit).
Proof.
  assert (Hnew : NewSnowflake epochStart ex_now time.zero 34
                 = (epochStart, Some ex_sf)) by reflexivity.
  assert (Hlen : Z.of_nat (length (@nil Clock)) < callBudget) by reflexivity.
  assert (Hadv : lastTimestamp (after ex_sf [])
                 < elapsedTime (at_entry ex_clock_later)
                               (StartTime ex_sf)) by reflexivity.
  assert (Hclk : - 2 ^ 63 <= time.wall (at_entry ex_clock_later) < 2 ^ 63)
    by (vm_compute; split; [discriminate | reflexivity]).
  assert (Hret : ret (NextID (after ex_sf []) ex_clock_later)
                 = Return 612046261968838656 None) by reflexivity.
  repeat (split; [assumption |]).
  apply (NextID_decoded_mint_time epochStart ex_now time.zero 34 epochStart
           ex_sf Hnew [] ex_clock_later 612046261968838656
           Hlen Hadv Hclk Hret).
Defined.

(** ** Constructions one after the other *)

(** X21: A construction with a custom epoch leaves that epoch in the
    package-level variable, so that a later construction with the zero
    epoch starts from it, whatever the variable held before. *)
Theorem NewSnowflake_default_follows_custom
    (g now1 start1 : time.Time) (m1 : Z) (now2 : time.Time) (m2 : Z) :
  time.IsZero start1 = false ->
  time.After start1 now1 = false ->
  time.wall time.zero <= time.wall now2 ->
  NewSnowflake (fst (NewSnowflake g now1 start1 m1)) now2 time.zero m2
  = (start1,
     Some (mkSnowflake (timeToSnowflakeUnit start1) (m2 mod 2 ^ MachineIDBits) 0 0)).
Proof.
  intros Hz H1 H2.
  assert (E1 : fst (NewSnowflake g now1 start1 m1) = start1).
  { unfold NewSnowflake. now rewrite H1, Hz. }
  rewrite E1. unfold NewSnowflake, time.After. cbn [time.mono time.zero].
  destruct (Z.ltb_spec (time.wall now2) (time.wall time.zero)); [lia |].
  change (time.IsZero time.zero) with true. cbv iota.
  assert (Em : uint64 (Z.land m2 maxNodeID) = m2 mod 2 ^ MachineIDBits).
  { change maxNodeID with (Z.ones 10). change (2 ^ MachineIDBits) with (2 ^ 10).
    rewrite Z.land_ones by lia. apply uint64_small.
    pose proof (Z.mod_pos_bound m2 (2 ^ 10) ltac:(lia)). lia. }
  rewrite Em. reflexivity.
Qed.

Lemma NewSnowflake_default_follows_custom_witness :
  time.IsZero ex_2020 = false
  /\ time.After ex_2020 ex_now = false
  /\ time.wall time.zero <= time.wall ex_now
  /\ NewSnowflake (fst (NewSnowflake epochStart ex_now ex_2020 7))
                  ex_now time.zero 34
     = (ex_2020,
        Some (mkSnowflake (timeToSnowflakeUnit ex_2020)
                          (34 mod 2 ^ MachineIDBits) 0 0)).
Proof.
  assert (Hz : time.IsZero ex_2020 = false) by reflexivity.
  assert (H1 : time.After ex_2020 ex_now = false) by reflexivity.
  assert (H2 : time.wall time.zero <= time.wall ex_now)
    by (vm_compute; discriminate).
  repeat (split; [assumption |]).
  apply (NewSnowflake_default_follows_custom epochStart ex_now
           ex_2020 7 ex_now 34 Hz H1 H2).
Defined.
